(** * dm-data-noise-adder: the noise injector of [src/main.py]

    A shallow embedding of [add_noise] and [main] and the properties the
    specification states about them.

    Modelling conventions.
    - The program is written once, over an interface of the float operations
      it uses ([Numbers]).  Two instances are given: [binary64], the IEEE
      doubles Python computes with (rounding, infinities and NaN included),
      and [rationals], the real numbers the doubles stand for, with the
      overflow threshold of binary64.  Properties that do not depend on how
      numbers round are proved for every instance, or written on [rationals]
      from lemmas that hold for every instance; what depends on rounding,
      overflow or NaN is run on [binary64].
    - A pandas [DataFrame] is a mutable object: the model keeps a store of
      frames indexed by object identity ([loc]) and [add_noise] receives and
      returns a reference.  Several columns of a frame may carry one label;
      [data[name]] is then a frame and not a column.
    - The columns are of the dtypes [read_csv] infers (int64, float64, bool,
      object).
    - numpy's global generator, Python's [random] module, the CSV reader and
      writer of pandas and the answer of the file system to a write are
      libraries the program calls; they enter as interfaces ([Generators],
      [CsvCodec]).
    - argparse's reading of the command line is outside the model, which
      starts from its result: the values recognised, or an exit. *)

From Stdlib Require Import ZArith QArith Qabs Lia Lqa.
From Stdlib Require Floats.
From stdpp Require Import gmap strings list.

Open Scope string_scope.

(** ** Exceptions and log records *)

(** The classes of [Exception] the program meets. *)
Inductive exn_class :=
| ValueError
| TypeError
| FileNotFoundError
| EmptyDataError
| OverflowError
| OtherException.

Record exn := Exn { exn_cls : exn_class; exn_msg : string }.

(** [isinstance(e, base)] for the handlers of the program.  pandas declares
    [EmptyDataError] as a subclass of [ValueError]. *)
Definition isinstance (e : exn) (base : exn_class) : bool :=
  match base, exn_cls e with
  | ValueError, (ValueError | EmptyDataError) => true
  | TypeError, TypeError => true
  | FileNotFoundError, FileNotFoundError => true
  | EmptyDataError, EmptyDataError => true
  | _, _ => false
  end.

Inductive log_level := INFO | ERROR.

Record LogRecord := Log { log_level_of : log_level; log_message : string }.

(** ** Numbers *)

(** The float operations of the program: [float(x)] of an integer, the value
    of a decimal literal, [+], [-], [*], the comparisons [<=] and [<] as
    Python answers them (the test [x >= y] of the source is [fle y x]), and
    numpy's [isfinite]. *)
Class Numbers := {
  number : Type;
  of_int : Z -> number;
  literal : Q -> number;
  fadd : number -> number -> number;
  fsub : number -> number -> number;
  fmul : number -> number -> number;
  fle : number -> number -> bool;
  flt : number -> number -> bool;
  isfinite : number -> bool
}.

(** The least magnitude that rounds to infinity in binary64. *)
Definition overflow_threshold : Q := inject_Z (2 ^ 1024 - 2 ^ 970).

(** Real numbers: exact operations, a total order, and the overflow of
    binary64 read off the magnitude. *)
Definition rationals : Numbers := {|
  number := Q;
  of_int := inject_Z;
  literal := fun q => q;
  fadd := Qplus;
  fsub := Qminus;
  fmul := Qmult;
  fle := Qle_bool;
  flt := fun x y => negb (Qle_bool y x);
  isfinite := fun x => negb (Qle_bool overflow_threshold (Qabs x))
|}.

(** [float(z)]: the double nearest to the integer [z] (ties to even). *)
Definition float_of_Z (z : Z) : PrimFloat.float :=
  FloatOps.SF2Prim
    (SpecFloat.binary_normalize FloatOps.prec FloatOps.emax z 0 false).

(** IEEE binary64, the floats of Python and numpy.  A literal [n / d] is
    read as the quotient of the doubles of [n] and [d], which is the double
    nearest to it when both are exact, as for the defaults [-0.1] and
    [0.1]. *)
Definition binary64 : Numbers := {|
  number := PrimFloat.float;
  of_int := float_of_Z;
  literal := fun q => PrimFloat.div (float_of_Z (Qnum q)) (float_of_Z (Zpos (Qden q)));
  fadd := PrimFloat.add;
  fsub := PrimFloat.sub;
  fmul := PrimFloat.mul;
  fle := PrimFloat.leb;
  flt := PrimFloat.ltb;
  isfinite := PrimFloat.is_finite
|}.

Canonical Structure rationals.
Canonical Structure binary64.

(** Numerals standing for a [number] are read as rationals. *)
Bind Scope Q_scope with number.

(** ** Data model: typed columns and frames *)

Section Model.
Context {N : Numbers}.

(** A pandas [Series] of one of the dtypes [read_csv] infers: a dtype and the
    values. *)
Inductive Series :=
| Int64Series (xs : list Z)
| Float64Series (xs : list number)
| BoolSeries (xs : list bool)
| ObjectSeries (xs : list string).

(** The Python objects a [Series] hands to the function given to [apply]. *)
Inductive scalar :=
| PyInt (z : Z)
| PyFloat (q : number)
| PyBool (b : bool)
| PyStr (s : string).

Definition cells (s : Series) : list scalar :=
  match s with
  | Int64Series xs => map PyInt xs
  | Float64Series xs => map PyFloat xs
  | BoolSeries xs => map PyBool xs
  | ObjectSeries xs => map PyStr xs
  end.

(** [pd.api.types.is_numeric_dtype]: integer, floating and boolean dtypes. *)
Definition is_numeric_dtype (s : Series) : bool :=
  match s with
  | ObjectSeries _ => false
  | _ => true
  end.

(** The float a numeric Python object becomes in float arithmetic. *)
Definition to_number (x : scalar) : option number :=
  match x with
  | PyInt z => Some (of_int z)
  | PyFloat q => Some q
  | PyBool b => Some (of_int (if b then 1 else 0))
  | PyStr _ => None
  end.

(** [x * f] for a float [f]: numbers multiply, a [str] raises [TypeError]. *)
Definition py_mul_float (x : scalar) (f : number) : exn + number :=
  match to_number x with
  | Some v => inr (fmul v f)
  | None => inl (Exn TypeError "can't multiply sequence by non-int of type 'float'")
  end.

(** A [DataFrame]: named columns in order. *)
Definition DataFrame := list (string * Series).

Definition columns (df : DataFrame) : list string := map fst df.

(** The columns that carry a label, in order.  pandas lets several columns
    carry one label ([pd.read_csv] renames repeated headers and never builds
    such a frame, a caller of [add_noise] may). *)
Fixpoint labelled (name : string) (df : DataFrame) : list Series :=
  match df with
  | [] => []
  | (c, s) :: rest =>
      if String.eqb c name then s :: labelled name rest else labelled name rest
  end.

(** What [df[name]] evaluates to for a label the frame has: the column, a
    [Series], when one column carries it; a [DataFrame] of the columns that
    carry it otherwise. *)
Inductive selection :=
| OneColumn (s : Series)
| SubFrame (cols : list Series).

Definition select (name : string) (df : DataFrame) : option selection :=
  match labelled name df with
  | [] => None
  | [s] => Some (OneColumn s)
  | cols => Some (SubFrame cols)
  end.

(** [df[name]] where it is a [Series]. *)
Definition getitem (name : string) (df : DataFrame) : option Series :=
  match select name df with
  | Some (OneColumn s) => Some s
  | _ => None
  end.

(** [pd.api.types.is_numeric_dtype(df[name])]: a [DataFrame] has no dtype
    and the answer for it is [False]. *)
Definition is_numeric_selection (x : selection) : bool :=
  match x with
  | OneColumn s => is_numeric_dtype s
  | SubFrame _ => false
  end.

(** [df[name] = s] for a [Series] [s]: every column carrying the label is
    replaced in place; a new label is appended. *)
Definition setitem (name : string) (s : Series) (df : DataFrame) : DataFrame :=
  if bool_decide (name ∈ columns df)
  then map (fun p => if String.eqb (fst p) name then (fst p, s) else p) df
  else (df ++ [(name, s)])%list.

(** Number of rows of a column and the numeric reading of its rows. *)
Definition n_rows (s : Series) : nat := length (cells s).

Definition row_values (s : Series) : list (option number) :=
  map to_number (cells s).

End Model.

(** ** Library interfaces *)

(** The two random generators the program touches.  [random_sample] is
    numpy's [random_sample()], a float of [[0, 1)]; [init_genrand] is the
    state [np.random.seed] installs; [py_seed] the one [random.seed] does. *)
Class Generators {N : Numbers} := {
  rng : Type;
  init_genrand : Z -> rng;
  random_sample : rng -> number * rng;
  py_rng : Type;
  py_seed : Z -> py_rng
}.

(** pandas' CSV reader and writer on file contents, and the exception the
    operating system answers when a path cannot be opened for writing. *)
Class CsvCodec {N : Numbers} := {
  parse_csv : string -> exn + DataFrame;
  format_csv : DataFrame -> string;
  write_error : string -> option exn
}.

Definition loc := positive.

Section Program.
Context {N : Numbers} {G : @Generators N} {C : @CsvCodec N}.

(** ** Process state *)

Record World := mkWorld {
  frames : gmap loc DataFrame;
  np_state : rng;
  py_state : py_rng;
  log : list LogRecord;
  files : gmap string string
}.

Definition set_frames (f : gmap loc DataFrame) (w : World) : World :=
  mkWorld f (np_state w) (py_state w) (log w) (files w).
Definition set_np_state (s : rng) (w : World) : World :=
  mkWorld (frames w) s (py_state w) (log w) (files w).
Definition set_py_state (s : py_rng) (w : World) : World :=
  mkWorld (frames w) (np_state w) s (log w) (files w).
Definition set_log (l : list LogRecord) (w : World) : World :=
  mkWorld (frames w) (np_state w) (py_state w) l (files w).
Definition set_files (f : gmap string string) (w : World) : World :=
  mkWorld (frames w) (np_state w) (py_state w) (log w) f.

(** ** State and exception monad *)

Definition M (A : Type) : Type := World -> (exn + A) * World.

Definition ret {A} (a : A) : M A := fun w => (inr a, w).

Definition bind {A B} (m : M A) (k : A -> M B) : M B :=
  fun w =>
    match m w with
    | (inl e, w') => (inl e, w')
    | (inr a, w') => k a w'
    end.

Definition raise {A} (e : exn) : M A := fun w => (inl e, w).

Definition try_except {A} (body : M A) (handler : exn -> M A) : M A :=
  fun w =>
    match body w with
    | (inl e, w') => handler e w'
    | (inr a, w') => (inr a, w')
    end.

Definition lift {A} (r : exn + A) : M A :=
  match r with
  | inl e => raise e
  | inr a => ret a
  end.

Notation "x <- m ;; k" := (bind m (fun x => k))
  (at level 100, m at next level, right associativity).
Notation "m ;;; k" := (bind m (fun _ => k))
  (at level 100, right associativity).

Fixpoint mapM {A B} (f : A -> M B) (l : list A) : M (list B) :=
  match l with
  | [] => ret []
  | x :: rest =>
      y <- f x ;;
      ys <- mapM f rest ;;
      ret (y :: ys)
  end.

(** ** Primitive effects *)

Definition logging (lvl : log_level) (msg : string) : M unit :=
  fun w => (inr tt, set_log (log w ++ [Log lvl msg]) w).

(** Reading through a reference.  A Python name always denotes a live
    object; the failing branch is there only to make the function total. *)
Definition deref (data : loc) : M DataFrame :=
  fun w =>
    match frames w !! data with
    | Some df => (inr df, w)
    | None => (inl (Exn OtherException "dangling reference"), w)
    end.

(** [data[name]] raises [KeyError] (not one of the classes handled apart)
    for an absent label. *)
Definition frame_select (data : loc) (name : string) : M selection :=
  df <- deref data ;;
  match select name df with
  | Some x => ret x
  | None => raise (Exn OtherException ("'" +:+ name +:+ "'"))
  end.

(** The receiver of [.apply] at line 54, where [data[name]] is a [Series].
    For a label carried by several columns the receiver is a frame and the
    method is [DataFrame.apply], which the model does not describe:
    [add_noise] never evaluates it, the dtype check of line 44 having raised
    for such a label. *)
Definition frame_getitem (data : loc) (name : string) : M Series :=
  x <- frame_select data name ;;
  match x with
  | OneColumn s => ret s
  | SubFrame _ => raise (Exn OtherException "DataFrame.apply")
  end.

(** [data[name] = s] mutates the object [data] refers to. *)
Definition frame_setitem (data : loc) (name : string) (s : Series) : M unit :=
  df <- deref data ;;
  fun w => (inr tt, set_frames (<[data := setitem name s df]> (frames w)) w).

(** [np.random.seed(seed)]: numpy accepts seeds of [[0, 2**32 - 1]] only. *)
Definition np_random_seed (seed : Z) : M unit :=
  if ((0 <=? seed) && (seed <? 2 ^ 32))%Z
  then fun w => (inr tt, set_np_state (init_genrand seed) w)
  else raise (Exn ValueError "Seed must be between 0 and 2**32 - 1").

(** [random.seed(seed)] *)
Definition random_seed (seed : Z) : M unit :=
  fun w => (inr tt, set_py_state (py_seed seed) w).

(** [np.random.uniform(low, high)]: numpy computes the width [high - low],
    raises [OverflowError] when it is not finite, and otherwise returns
    [low + (high - low) * random_sample()] on the global generator. *)
Definition np_random_uniform (low high : number) : M number :=
  fun w =>
    if isfinite (fsub high low)
    then let (r, st) := random_sample (np_state w) in
         (inr (fadd low (fmul (fsub high low) r)), set_np_state st w)
    else (inl (Exn OverflowError "Range exceeds valid bounds"), w).

(** [Series.apply(f)]: an empty series is returned with its dtype; otherwise
    [f] runs on every value in row order and the results make a float
    series. *)
Definition Series_apply (f : scalar -> M number) (s : Series) : M Series :=
  match cells s with
  | [] => ret s
  | xs => ys <- mapM f xs ;; ret (Float64Series ys)
  end.

(** ** [add_noise] *)

(** [lambda x: x * (1 + np.random.uniform(min_noise, max_noise))] *)
Definition noise_lambda (min_noise max_noise : number) (x : scalar) : M number :=
  u <- np_random_uniform min_noise max_noise ;;
  lift (py_mul_float x (fadd (of_int 1) u)).

(** Lines 54-56: the transform statement. *)
Definition transform (data : loc) (column_name : string)
    (min_noise max_noise : number) : M unit :=
  col <- frame_getitem data column_name ;;
  noised <- Series_apply (noise_lambda min_noise max_noise) col ;;
  frame_setitem data column_name noised.

(** The body of the [try] block of [add_noise]. *)
Definition add_noise_body (data : loc) (column_name : string)
    (min_noise max_noise : number) (seed : option Z) : M loc :=
  df <- deref data ;;
  (if bool_decide (column_name ∈ columns df) then ret tt
   else raise (Exn ValueError
          ("Column '" +:+ column_name +:+ "' not found in the input file."))) ;;;
  col <- frame_select data column_name ;;
  (if is_numeric_selection col then ret tt
   else raise (Exn TypeError
          ("Column '" +:+ column_name +:+ "' is not numeric."))) ;;;
  (if fle max_noise min_noise
   then raise (Exn ValueError "min_noise must be less than max_noise.")
   else ret tt) ;;;
  match seed with
  | Some s => np_random_seed s ;;; random_seed s
  | None => ret tt
  end ;;;
  transform data column_name min_noise max_noise ;;;
  ret data.

(** The [except] clauses of [add_noise]: log, then re-raise. *)
Definition add_noise_handler (e : exn) : M loc :=
  (if isinstance e ValueError then logging ERROR ("ValueError: " +:+ exn_msg e)
   else if isinstance e TypeError then logging ERROR ("TypeError: " +:+ exn_msg e)
   else logging ERROR ("An unexpected error occurred: " +:+ exn_msg e)) ;;;
  raise e.

Definition add_noise (data : loc) (column_name : string)
    (min_noise max_noise : number) (seed : option Z) : M loc :=
  try_except (add_noise_body data column_name min_noise max_noise seed)
             add_noise_handler.

(** ** [main] *)

(** The parsed command line ([setup_argparse]). *)
Record Args := mkArgs {
  input_file : string;
  output_file : string;
  column_name : string;
  min_noise : number;
  max_noise : number;
  seed : option Z
}.

(** [pd.read_csv(path)]: a missing file raises [FileNotFoundError], a file
    with no content [EmptyDataError]; otherwise the parser decides, and the
    frame it builds is a new object. *)
Definition pd_read_csv (path : string) : M loc :=
  fun w =>
    match files w !! path with
    | None =>
        (inl (Exn FileNotFoundError
                ("[Errno 2] No such file or directory: '" +:+ path +:+ "'")), w)
    | Some text =>
        if bool_decide (text = "")
        then (inl (Exn EmptyDataError "No columns to parse from file"), w)
        else match parse_csv text with
             | inl e => (inl e, w)
             | inr df =>
                 let l := fresh (dom (frames w)) in
                 (inr l, set_frames (<[l := df]> (frames w)) w)
             end
    end.

(** [data.to_csv(path, index=False)]: the file is written, unless the path
    cannot be opened for writing. *)
Definition to_csv (data : loc) (path : string) : M unit :=
  df <- deref data ;;
  match write_error path with
  | Some e => raise e
  | None =>
      fun w => (inr tt, set_files (<[path := format_csv df]> (files w)) w)
  end.

Definition main_body (args : Args) : M unit :=
  logging INFO ("Reading input file: " +:+ input_file args) ;;;
  data <- pd_read_csv (input_file args) ;;
  logging INFO ("Adding noise to column: " +:+ column_name args) ;;;
  data <- add_noise data (column_name args) (min_noise args) (max_noise args)
            (seed args) ;;
  logging INFO ("Saving output to: " +:+ output_file args) ;;;
  to_csv data (output_file args) ;;;
  logging INFO "Data masking completed successfully.".

Definition main_handler (args : Args) (e : exn) : M unit :=
  if isinstance e FileNotFoundError
  then logging ERROR ("Input file not found: " +:+ input_file args)
  else if isinstance e EmptyDataError
  then logging ERROR ("Input file is empty: " +:+ input_file args)
  else logging ERROR ("An error occurred: " +:+ exn_msg e).

(** [main] from line 77 on, for the [args] line 75 has obtained. *)
Definition main (args : Args) : M unit :=
  try_except (main_body args) (main_handler args).


(** ** The error taxonomy of the specification, as the code raises it *)

Definition UnknownColumn (name : string) : exn :=
  Exn ValueError ("Column '" +:+ name +:+ "' not found in the input file.").

Definition NonNumericColumn (name : string) : exn :=
  Exn TypeError ("Column '" +:+ name +:+ "' is not numeric.").

Definition InvalidRange : exn :=
  Exn ValueError "min_noise must be less than max_noise.".

Definition InvalidSeed : exn :=
  Exn ValueError "Seed must be between 0 and 2**32 - 1".

(** The exception of the transform: numpy's, raised at the first row when
    the width of the range is not finite. *)
Definition RangeOverflow : exn :=
  Exn OverflowError "Range exceeds valid bounds".

(** ** The draws of a run *)

(** The generator state after [n] samples. *)
Fixpoint iter_state (n : nat) (st : rng) : rng :=
  match n with
  | O => st
  | S k => iter_state k (snd (random_sample st))
  end.

(** The [i]-th value [np.random.uniform(low, high)] returns from state [st]. *)
Definition nth_uniform (low high : number) (st : rng) (i : nat) : number :=
  fadd low (fmul (fsub high low) (fst (random_sample (iter_state i st)))).

(** The generator state the transform starts from. *)
Definition seeded_state (seed : option Z) (w : World) : rng :=
  match seed with
  | Some s => init_genrand s
  | None => np_state w
  end.

Definition valid_seed (seed : option Z) : Prop :=
  match seed with
  | Some s => (0 <= s < 2 ^ 32)%Z
  | None => True
  end.

(** The cell of a frame at a column and a row, and its numeric reading. *)
Definition cell (df : DataFrame) (name : string) (i : nat) : option scalar :=
  s ← getitem name df; cells s !! i.

Definition cell_number (df : DataFrame) (name : string) (i : nat) :
    option number :=
  x ← cell df name i; to_number x.

(** The column [Series.apply] builds from [s] when the generator starts in
    state [st]: row [i] is scaled by one plus the [i]-th draw. *)
Definition numbers (s : Series) : list number := omap to_number (cells s).

Definition noised_series (low high : number) (st : rng) (s : Series) : Series :=
  match cells s with
  | [] => s
  | _ => Float64Series
           (imap (fun i v => fmul v (fadd (of_int 1) (nth_uniform low high st i)))
                 (numbers s))
  end.

(** The state [np.random.seed(s); random.seed(s)] leaves, and the state a
    completed transform leaves. *)
Definition seed_world (seed : option Z) (w : World) : World :=
  match seed with
  | Some s => set_py_state (py_seed s) (set_np_state (init_genrand s) w)
  | None => w
  end.

Definition noised_world (data : loc) (name : string) (low high : number)
    (df : DataFrame) (s : Series) (w : World) : World :=
  set_frames
    (<[data := setitem name (noised_series low high (np_state w) s) df]> (frames w))
    (set_np_state (iter_state (n_rows s) (np_state w)) w).

(** The state a logged failure leaves: one more [ERROR] record. *)
Definition logged (msg : string) (w : World) : World :=
  set_log (log w ++ [Log ERROR msg]) w.


(** Whether the transform completes on a column: it has no row, or the
    width of the range is finite. *)
Definition draws_complete (a b : number) (s : Series) : bool :=
  Nat.eqb (n_rows s) 0 || isfinite (fsub b a).

(** The frame [main] hands to [to_csv] when [add_noise] returns. *)
Definition noised_frame (args : Args) (w : World) (df : DataFrame)
    (s : Series) : DataFrame :=
  setitem (column_name args)
    (noised_series (min_noise args) (max_noise args)
       (seeded_state (seed args) w) s) df.

End Program.

(** * The checks as a function of the frame

    The exception the checks of [add_noise] (lines 41-52) end in for a frame
    and the arguments, read off the four [raise] sites in their order: the
    three of the function and the one of [np.random.seed]. *)

Definition exn_class_name (c : exn_class) : string :=
  match c with
  | ValueError => "ValueError"
  | TypeError => "TypeError"
  | FileNotFoundError => "FileNotFoundError"
  | EmptyDataError => "EmptyDataError"
  | OverflowError => "OverflowError"
  | OtherException => "Exception"
  end.

Section CommandLine.
Context {N : Numbers} {G : @Generators N} {C : @CsvCodec N}.

Definition validate (df : DataFrame) (column_name : string)
    (min_noise max_noise : number) (seed : option Z) : option exn :=
  match select column_name df with
  | None => Some (UnknownColumn column_name)
  | Some col =>
      if negb (is_numeric_selection col) then Some (NonNumericColumn column_name)
      else if fle max_noise min_noise then Some InvalidRange
      else match seed with
           | Some s =>
               if ((0 <=? s) && (s <? 2 ^ 32))%Z then None else Some InvalidSeed
           | None => None
           end
  end.

(** ** The command line

    [setup_argparse] (lines 10-22) declares three positional arguments and
    three options with defaults.  Splitting the words of the command line
    and converting them with [float] and [int] is argparse's work; the model
    starts from the values argparse has recognised, an option being absent
    or present with its value, and applies the defaults as declared. *)

Record CommandLine := mkCommandLine {
  arg_input_file : string;
  arg_output_file : string;
  arg_column_name : string;
  opt_min_noise : option number;
  opt_max_noise : option number;
  opt_seed : option Z
}.

Definition setup_argparse (cl : CommandLine) : Args :=
  mkArgs (arg_input_file cl) (arg_output_file cl) (arg_column_name cl)
         (default (literal (-1 # 10)) (opt_min_noise cl))
         (default (literal (1 # 10)) (opt_max_noise cl))
         (opt_seed cl).

(** What [parser.parse_args()] does with a command line: it hands over the
    values it recognised, or it ends the process, with status 2 after a
    usage error and with status 0 after the help text of [-h]. *)
Inductive parse_result :=
| Parsed (cl : CommandLine)
| Exits (status : Z).

(** How a run of [main()] ends: it returns, an exception leaves it, or
    the interpreter exits with a status ([SystemExit] is no [Exception] and
    passes every [except Exception]). *)
Inductive ending :=
| Returned
| Raised (e : exn)
| SystemExit (status : Z).

(** [main()] from its first line: line 75 calls [setup_argparse()] outside
    the [try], so that an exit of argparse ends the run before anything is
    read or logged. *)
Definition main_from_argv (argv : parse_result) (w : World) : ending * World :=
  match argv with
  | Parsed cl =>
      match main (setup_argparse cl) w with
      | (inr _, w') => (Returned, w')
      | (inl e, w') => (Raised e, w')
      end
  | Exits status => (SystemExit status, w)
  end.

End CommandLine.

(** * Test fixtures

    The salary table of the specification's example, a small congruential
    generator standing for the two library generators, and a reader that
    knows the example file; first on [rationals], then on [binary64]. *)

Definition lcg : @Generators rationals := {|
  rng := Z;
  init_genrand := fun s => s;
  random_sample := fun st =>
    let st' := ((1103515245 * st + 12345) mod 2 ^ 31)%Z in
    (Qmake st' 2147483648 : @number rationals, st');
  py_rng := Z;
  py_seed := fun s => s
|}.

Definition salary_frame : @DataFrame rationals :=
  [("id", Int64Series [1; 2]%Z); ("salary", Int64Series [1000; 2000]%Z)].

Definition names_frame : @DataFrame rationals :=
  [("id", Int64Series [1; 2]%Z); ("name", ObjectSeries ["ann"; "bob"])].

Definition newline : string := String (Ascii.ascii_of_nat 10) "".

Definition salary_csv : string :=
  "id,salary" +:+ newline +:+ "1,1000" +:+ newline +:+ "2,2000" +:+ newline.

Definition table_codec : @CsvCodec rationals := {|
  parse_csv := fun text =>
    if bool_decide (text = salary_csv) then inr salary_frame
    else inl (Exn OtherException "Error tokenizing data");
  format_csv := fun df => String.concat "," (columns df);
  write_error := fun path => None
|}.

(** A process holding the salary frame at reference [1], with the example
    file on disk. *)
Definition salary_world : @World rationals lcg :=
  mkWorld (G := lcg) {[1%positive := salary_frame]} 7%Z 11%Z []
          {["input.csv" := salary_csv]}.

Definition names_world : @World rationals lcg :=
  mkWorld (G := lcg) {[1%positive := names_frame]} 7%Z 11%Z [] ∅.

(** Another process: the same table behind another reference, other
    generator states, a log that is not empty. *)
Definition other_world : @World rationals lcg :=
  mkWorld (G := lcg) {[5%positive := salary_frame]} 99%Z 3%Z
          [Log INFO "started"] ∅.


(** The default range of the command line and the run of the usage note. *)
Definition default_min : Q := -1 # 10.
Definition default_max : Q := 1 # 10.

Definition salary_noised : @World rationals lcg :=
  snd (add_noise (G := lcg) 1%positive "salary" default_min default_max
         (Some 42%Z) salary_world).

Definition missing_args : @Args rationals :=
  mkArgs "input.csv" "output.csv" "missing" default_min default_max (Some 42%Z).



(** A table with a boolean column. *)
Definition flags_frame : @DataFrame rationals :=
  [("id", Int64Series [1; 2]%Z); ("active", BoolSeries [true; false])].

Definition flags_world : @World rationals lcg :=
  mkWorld (G := lcg) {[1%positive := flags_frame]} 7%Z 11%Z [] ∅.

Definition salary_args : @Args rationals :=
  mkArgs "input.csv" "output.csv" "salary" default_min default_max (Some 42%Z).

(** The command line [input.csv output.csv salary --min_noise 0.2]. *)
Definition only_min_noise : @CommandLine rationals :=
  mkCommandLine "input.csv" "output.csv" "salary" (Some (2 # 10)) None None.

(** The example file in another process: other generator states, another
    file beside it. *)
Definition disk_world : @World rationals lcg :=
  mkWorld (G := lcg) ∅ 99%Z 3%Z [Log INFO "started"]
          {["input.csv" := salary_csv; "notes.txt" := "keep"]}.

(** A reader that knows the example file and a file system that has no
    directory [missing]: pandas refuses to write below it. *)
Definition readonly_codec : @CsvCodec rationals := {|
  parse_csv := fun text =>
    if bool_decide (text = salary_csv) then inr salary_frame
    else inl (Exn OtherException "Error tokenizing data");
  format_csv := fun df => String.concat "," (columns df);
  write_error := fun path =>
    if String.prefix "missing/" path
    then Some (Exn OtherException
                 "Cannot save file into a non-existent directory: 'missing'")
    else None
|}.

Definition missing_dir_args : @Args rationals :=
  mkArgs "input.csv" "missing/output.csv" "salary" default_min default_max
         (Some 42%Z).

(** A frame built by a caller in which two columns carry the label
    [salary]. *)
Definition twin_frame : @DataFrame rationals :=
  [("salary", Int64Series [1000; 2000]%Z); ("salary", Int64Series [10; 20]%Z)].

Definition twin_world : @World rationals lcg :=
  mkWorld (G := lcg) {[1%positive := twin_frame]} 7%Z 11%Z [] ∅.

(** ** On binary64 *)

(** The congruential generator with its samples as doubles. *)
Definition lcg64 : @Generators binary64 := {|
  rng := Z;
  init_genrand := fun s => s;
  random_sample := fun st =>
    let st' := ((1103515245 * st + 12345) mod 2 ^ 31)%Z in
    (PrimFloat.div (float_of_Z st') (float_of_Z (2 ^ 31)) : @number binary64,
     st');
  py_rng := Z;
  py_seed := fun s => s
|}.



Definition salary_frame64 : @DataFrame binary64 :=
  [("id", Int64Series [1; 2]%Z); ("salary", Int64Series [1000; 2000]%Z)].

Definition names_frame64 : @DataFrame binary64 :=
  [("id", Int64Series [1; 2]%Z); ("name", ObjectSeries ["ann"; "bob"])].

Definition empty_frame64 : @DataFrame binary64 :=
  [("id", Int64Series []); ("salary", Float64Series [])].


Definition salary_world64 : @World binary64 lcg64 :=
  mkWorld (G := lcg64) {[1%positive := salary_frame64]} 7%Z 11%Z [] ∅.

Definition names_world64 : @World binary64 lcg64 :=
  mkWorld (G := lcg64) {[1%positive := names_frame64]} 7%Z 11%Z [] ∅.

Definition empty_world64 : @World binary64 lcg64 :=
  mkWorld (G := lcg64) {[1%positive := empty_frame64]} 7%Z 11%Z [] ∅.


(** The bounds of the runs on binary64: the default range, a range whose
    width overflows, a range one float spacing wide at 1e16, and NaN. *)
Definition minus_tenth : PrimFloat.float := literal (Numbers := binary64) (-1 # 10).
Definition tenth : PrimFloat.float := literal (Numbers := binary64) (1 # 10).
Definition huge : PrimFloat.float := float_of_Z (2 ^ 1023).
Definition minus_huge : PrimFloat.float := float_of_Z (- 2 ^ 1023).
Definition low16 : PrimFloat.float := float_of_Z (10 ^ 16).
Definition high16 : PrimFloat.float := float_of_Z (10 ^ 16 + 2).

(** * Properties for every number system *)

Section Generic.
Context {N : Numbers} {G : @Generators N} {C : @CsvCodec N}.

(** ** Frames *)

Lemma labelled_nil (name : string) (df : DataFrame) :
  name ∉ columns df <-> labelled name df = [].
Proof.
  induction df as [|[c s] rest IH]; simpl.
  - split; [reflexivity | intros _ H; inversion H].
  - rewrite not_elem_of_cons, IH.
    destruct (String.eqb_spec c name) as [->|Hne].
    + split; [intros [H _]; congruence | discriminate].
    + split; [now intros [_ H] | intros H; split; [congruence | exact H]].
Qed.

Lemma select_in (name : string) (df : DataFrame) :
  name ∈ columns df <-> is_Some (select name df).
Proof.
  unfold select. destruct (labelled name df) as [|s [|s' cols]] eqn:E.
  - split; [intros H; now apply labelled_nil in E | intros [x H]; discriminate].
  - split; [eauto|]. intros _.
    destruct (decide (name ∈ columns df)) as [H|H]; [exact H|].
    apply labelled_nil in H. congruence.
  - split; [eauto|]. intros _.
    destruct (decide (name ∈ columns df)) as [H|H]; [exact H|].
    apply labelled_nil in H. congruence.
Qed.

Lemma getitem_labelled (name : string) (df : DataFrame) (s : Series) :
  getitem name df = Some s <-> labelled name df = [s].
Proof.
  unfold getitem, select.
  destruct (labelled name df) as [|s0 [|s1 cols]]; split; intros H;
    try discriminate; now injection H as ->.
Qed.

Lemma getitem_select (name : string) (df : DataFrame) (s : Series) :
  getitem name df = Some s <-> select name df = Some (OneColumn s).
Proof.
  unfold getitem. destruct (select name df) as [[s0|cols]|]; split; intros H;
    try discriminate; now injection H as ->.
Qed.

(** A label the frame answers with a [Series] for is one of its labels. *)
Lemma getitem_in (name : string) (df : DataFrame) (s : Series) :
  getitem name df = Some s -> name ∈ columns df.
Proof.
  intros H. apply select_in. apply getitem_select in H. eauto.
Qed.

(** A label of the frame that has no [Series] is carried by several
    columns. *)
Lemma getitem_repeated (name : string) (df : DataFrame) :
  name ∈ columns df -> getitem name df = None ->
  exists cols, select name df = Some (SubFrame cols).
Proof.
  intros Hin Hnone. apply select_in in Hin as [x Hx].
  destruct x as [s|cols]; [|eauto].
  apply getitem_select in Hx. congruence.
Qed.

(** In a frame whose labels are distinct, as [read_csv] builds them, every
    label has its column. *)
Lemma getitem_NoDup (name : string) (df : DataFrame) :
  NoDup (columns df) -> name ∈ columns df -> is_Some (getitem name df).
Proof.
  induction df as [|[c s] rest IH]; simpl; intros Hnd Hin.
  - inversion Hin.
  - apply NoDup_cons in Hnd as [Hc Hnd].
    unfold getitem, select. cbn [labelled].
    destruct (String.eqb_spec c name) as [->|Hne].
    + apply labelled_nil in Hc. rewrite Hc. eauto.
    + apply elem_of_cons in Hin as [Hin|Hin]; [congruence|].
      exact (IH Hnd Hin).
Qed.

Lemma labelled_setitem_cols (name : string) (s : Series) (df : DataFrame) :
  labelled name
    (map (fun p : string * Series =>
            if String.eqb (fst p) name then (fst p, s) else p) df) =
    map (fun _ => s) (labelled name df).
Proof.
  induction df as [|[c old] rest IH]; simpl; [reflexivity|].
  destruct (String.eqb c name) eqn:E; simpl; rewrite E, IH; reflexivity.
Qed.

Lemma labelled_setitem_other (name other : string) (s : Series)
    (df : DataFrame) :
  other <> name ->
  labelled other
    (map (fun p : string * Series =>
            if String.eqb (fst p) name then (fst p, s) else p) df) =
    labelled other df.
Proof.
  intros Hne. induction df as [|[c old] rest IH]; simpl; [reflexivity|].
  destruct (String.eqb_spec c name) as [->|Hc]; simpl; rewrite IH.
  - destruct (String.eqb_spec name other); congruence.
  - reflexivity.
Qed.

Lemma labelled_app (name : string) (df1 df2 : DataFrame) :
  labelled name (df1 ++ df2)%list =
    (labelled name df1 ++ labelled name df2)%list.
Proof.
  induction df1 as [|[c s] rest IH]; simpl; [reflexivity|].
  destruct (String.eqb c name); simpl; now rewrite IH.
Qed.

(** Reading a column back after writing it. *)
Lemma getitem_setitem_eq (name : string) (s old : Series) (df : DataFrame) :
  getitem name df = Some old -> getitem name (setitem name s df) = Some s.
Proof.
  intros H. pose proof (getitem_in _ _ _ H) as Hin.
  apply getitem_labelled in H. apply getitem_labelled.
  unfold setitem. rewrite bool_decide_eq_true_2 by exact Hin.
  now rewrite labelled_setitem_cols, H.
Qed.

Lemma getitem_setitem_ne (name other : string) (s : Series) (df : DataFrame) :
  other <> name -> getitem other (setitem name s df) = getitem other df.
Proof.
  intros Hne. unfold getitem, select, setitem. case_bool_decide.
  - now rewrite labelled_setitem_other.
  - rewrite labelled_app. simpl.
    destruct (String.eqb_spec name other); [congruence|].
    now rewrite app_nil_r.
Qed.

Lemma columns_setitem (name : string) (s : Series) (df : DataFrame) :
  name ∈ columns df -> columns (setitem name s df) = columns df.
Proof.
  intros Hin. unfold setitem. rewrite bool_decide_eq_true_2 by exact Hin.
  unfold columns. rewrite map_map. apply map_ext.
  intros [c old]. simpl. now destruct (String.eqb c name).
Qed.


(** ** Columns *)

Lemma numeric_cells (s : Series) :
  is_numeric_dtype s = true -> map to_number (cells s) = map Some (numbers s).
Proof.
  unfold numbers. destruct s as [xs|xs|xs|xs]; simpl; [| | |discriminate];
    intros _; induction xs as [|x xs IH]; simpl;
    try reflexivity; f_equal; exact IH.
Qed.

Lemma numbers_length (s : Series) :
  is_numeric_dtype s = true -> length (numbers s) = n_rows s.
Proof.
  intros H. unfold n_rows.
  rewrite <- (length_map to_number), (numeric_cells s H).
  symmetry. apply length_map.
Qed.

Lemma non_numeric_value (s : Series) (i : nat) :
  row_values s !! i = Some None -> is_numeric_dtype s = false.
Proof.
  unfold row_values. destruct (is_numeric_dtype s) eqn:E; [|reflexivity].
  rewrite (numeric_cells s E), list_lookup_fmap.
  destruct (numbers s !! i); discriminate.
Qed.

Lemma numeric_row (s : Series) (i : nat) :
  is_numeric_dtype s = true ->
  (cells s !! i ≫= to_number) = numbers s !! i.
Proof.
  intros Hnum. pose proof (numeric_cells s Hnum) as H.
  apply (f_equal (fun l => l !! i)) in H. rewrite !list_lookup_fmap in H.
  destruct (cells s !! i) as [x|], (numbers s !! i) as [v|]; cbn in *; congruence.
Qed.

Lemma empty_cells (s : Series) : n_rows s = 0 <-> cells s = [].
Proof. unfold n_rows. apply length_zero_iff_nil. Qed.

(** ** The transform *)

Lemma noise_lambda_run (a b : number) (x : scalar) (v : number) (w : World) :
  isfinite (fsub b a) = true ->
  to_number x = Some v ->
  noise_lambda a b x w =
    (inr (fmul v (fadd (of_int 1) (nth_uniform a b (np_state w) 0))),
     set_np_state (snd (random_sample (np_state w))) w).
Proof.
  intros Hfin Hx. unfold noise_lambda, bind, np_random_uniform, nth_uniform.
  rewrite Hfin. cbn [iter_state].
  destruct (random_sample (np_state w)) as [r st].
  unfold py_mul_float. rewrite Hx. reflexivity.
Qed.

Lemma noise_lambda_overflow (a b : number) (x : scalar) (w : World) :
  isfinite (fsub b a) = false ->
  noise_lambda a b x w = (inl RangeOverflow, w).
Proof.
  intros Hfin. unfold noise_lambda, bind, np_random_uniform.
  now rewrite Hfin.
Qed.

Lemma mapM_noise_lambda (a b : number) (xs : list scalar) (vs : list number)
    (w : World) :
  isfinite (fsub b a) = true ->
  map to_number xs = map Some vs ->
  mapM (noise_lambda a b) xs w =
    (inr (imap (fun i v => fmul v (fadd (of_int 1) (nth_uniform a b (np_state w) i)))
               vs),
     set_np_state (iter_state (length xs) (np_state w)) w).
Proof.
  intros Hfin. revert vs w.
  induction xs as [|x xs IH]; intros [|v vs] w Hmap; try discriminate.
  - destruct w; reflexivity.
  - simpl in Hmap. injection Hmap as Hx Hrest.
    cbn [mapM]. unfold bind. rewrite (noise_lambda_run a b x v w Hfin Hx).
    rewrite (IH vs _ Hrest). destruct w; reflexivity.
Qed.

Lemma frame_select_run (data : loc) (c : string) (w : World) (df : DataFrame)
    (x : selection) :
  frames w !! data = Some df ->
  select c df = Some x ->
  frame_select data c w = (inr x, w).
Proof.
  intros Hdf Hx. unfold frame_select, bind, deref. now rewrite Hdf, Hx.
Qed.

Lemma transform_selects (data : loc) (c : string) (a b : number) (w : World)
    (df : DataFrame) (s : Series) :
  frames w !! data = Some df ->
  getitem c df = Some s ->
  transform data c a b w =
    bind (Series_apply (noise_lambda a b) s)
         (fun noised => frame_setitem data c noised) w.
Proof.
  intros Hdf Hcol. apply getitem_select in Hcol.
  unfold transform, frame_getitem. unfold bind at 1 2.
  now rewrite (frame_select_run data c w df _ Hdf Hcol).
Qed.

Lemma transform_run (data : loc) (c : string) (a b : number) (w : World)
    (df : DataFrame) (s : Series) :
  frames w !! data = Some df ->
  getitem c df = Some s ->
  is_numeric_dtype s = true ->
  n_rows s = 0 \/ isfinite (fsub b a) = true ->
  transform data c a b w = (inr tt, noised_world data c a b df s w).
Proof.
  intros Hdf Hcol Hnum Hok.
  rewrite (transform_selects data c a b w df s Hdf Hcol).
  unfold bind at 1, Series_apply, noised_world, noised_series, n_rows.
  destruct (cells s) as [|x xs] eqn:Ec.
  - cbn [ret length iter_state]. unfold frame_setitem, bind, deref.
    rewrite Hdf. destruct w; reflexivity.
  - destruct Hok as [Hn|Hfin].
    { apply empty_cells in Hn. congruence. }
    unfold bind at 1.
    rewrite (mapM_noise_lambda a b (x :: xs) (numbers s) w Hfin)
      by (rewrite <- Ec; now apply numeric_cells).
    cbn [ret]. unfold frame_setitem, bind, deref. cbn [frames set_np_state].
    rewrite Hdf. reflexivity.
Qed.

Lemma transform_overflow (data : loc) (c : string) (a b : number) (w : World)
    (df : DataFrame) (s : Series) :
  frames w !! data = Some df ->
  getitem c df = Some s ->
  0 < n_rows s ->
  isfinite (fsub b a) = false ->
  transform data c a b w = (inl RangeOverflow, w).
Proof.
  intros Hdf Hcol Hn Hfin.
  rewrite (transform_selects data c a b w df s Hdf Hcol).
  unfold bind at 1, Series_apply. unfold n_rows in Hn.
  destruct (cells s) as [|x xs]; [cbn in Hn; lia|].
  unfold bind at 1. cbn [mapM]. unfold bind at 1.
  now rewrite (noise_lambda_overflow a b x w Hfin).
Qed.

(** ** [add_noise], case by case *)

Lemma add_noise_handler_run (e : exn) (w : World) :
  exists msg, add_noise_handler e w = (inl e, logged msg w).
Proof.
  unfold add_noise_handler, bind, logging, raise, logged.
  destruct (isinstance e ValueError); [|destruct (isinstance e TypeError)];
    eexists; reflexivity.
Qed.

Lemma add_noise_dangling (data : loc) (c : string) (a b : number)
    (seed : option Z) (w : World) :
  frames w !! data = None ->
  exists e msg, add_noise data c a b seed w = (inl e, logged msg w).
Proof.
  intros Hdf. unfold add_noise, try_except, add_noise_body, bind at 1, deref.
  rewrite Hdf. eexists. apply add_noise_handler_run.
Qed.

Lemma add_noise_unknown (data : loc) (c : string) (a b : number)
    (seed : option Z) (w : World) (df : DataFrame) :
  frames w !! data = Some df ->
  c ∉ columns df ->
  add_noise data c a b seed w =
    (inl (UnknownColumn c),
     logged ("ValueError: " +:+ exn_msg (UnknownColumn c)) w).
Proof.
  intros Hdf Hc. unfold add_noise, try_except, add_noise_body, bind at 1, deref.
  rewrite Hdf. unfold bind at 1. rewrite bool_decide_eq_false_2 by exact Hc.
  reflexivity.
Qed.

(** The body of [add_noise] once the label has been found among the
    columns: what is left are the checks on the selection, the range and
    the seed, and the transform. *)
Lemma add_noise_body_select (data : loc) (c : string) (a b : number)
    (seed : option Z) (w : World) (df : DataFrame) (x : selection) :
  frames w !! data = Some df ->
  select c df = Some x ->
  add_noise_body data c a b seed w =
    bind (if is_numeric_selection x then ret tt
          else raise (NonNumericColumn c))
      (fun _ =>
         bind (if fle b a then raise InvalidRange else ret tt)
           (fun _ =>
              bind (match seed with
                    | Some z => bind (np_random_seed z) (fun _ => random_seed z)
                    | None => ret tt
                    end)
                (fun _ => bind (transform data c a b) (fun _ => ret data)))) w.
Proof.
  intros Hdf Hx.
  assert (Hc : c ∈ columns df) by (apply select_in; eauto).
  unfold add_noise_body, bind at 1, deref.
  rewrite Hdf. unfold bind at 1. rewrite bool_decide_eq_true_2 by exact Hc.
  cbn [ret]. unfold bind at 1.
  now rewrite (frame_select_run data c w df x Hdf Hx).
Qed.

(** The selection fails the dtype check: a column of a non-numeric dtype,
    or a label carried by several columns, for which [data[c]] is a frame
    and the check answers [False]. *)
Lemma add_noise_refused_selection (data : loc) (c : string) (a b : number)
    (seed : option Z) (w : World) (df : DataFrame) (x : selection) :
  frames w !! data = Some df ->
  select c df = Some x ->
  is_numeric_selection x = false ->
  add_noise data c a b seed w =
    (inl (NonNumericColumn c),
     logged ("TypeError: " +:+ exn_msg (NonNumericColumn c)) w).
Proof.
  intros Hdf Hx Hnum. unfold add_noise, try_except.
  rewrite (add_noise_body_select data c a b seed w df _ Hdf Hx).
  unfold bind at 1. now rewrite Hnum.
Qed.

Lemma add_noise_non_numeric (data : loc) (c : string) (a b : number)
    (seed : option Z) (w : World) (df : DataFrame) (s : Series) :
  frames w !! data = Some df ->
  getitem c df = Some s ->
  is_numeric_dtype s = false ->
  add_noise data c a b seed w =
    (inl (NonNumericColumn c),
     logged ("TypeError: " +:+ exn_msg (NonNumericColumn c)) w).
Proof.
  intros Hdf Hcol Hnum.
  apply (add_noise_refused_selection data c a b seed w df (OneColumn s));
    [exact Hdf|now apply getitem_select|exact Hnum].
Qed.

Lemma add_noise_invalid_range (data : loc) (c : string) (a b : number)
    (seed : option Z) (w : World) (df : DataFrame) (s : Series) :
  frames w !! data = Some df ->
  getitem c df = Some s ->
  is_numeric_dtype s = true ->
  fle b a = true ->
  add_noise data c a b seed w =
    (inl InvalidRange, logged ("ValueError: " +:+ exn_msg InvalidRange) w).
Proof.
  intros Hdf Hcol Hnum Hr.
  unfold add_noise, try_except.
  rewrite (add_noise_body_select data c a b _ w df (OneColumn s) Hdf)
    by now apply getitem_select.
  unfold bind at 1. cbn [is_numeric_selection]. rewrite Hnum.
  cbn [ret]. unfold bind at 1. rewrite Hr. reflexivity.
Qed.

Lemma add_noise_invalid_seed (data : loc) (c : string) (a b : number) (z : Z)
    (w : World) (df : DataFrame) (s : Series) :
  frames w !! data = Some df ->
  getitem c df = Some s ->
  is_numeric_dtype s = true ->
  fle b a = false ->
  ~ (0 <= z < 2 ^ 32)%Z ->
  add_noise data c a b (Some z) w =
    (inl InvalidSeed, logged ("ValueError: " +:+ exn_msg InvalidSeed) w).
Proof.
  intros Hdf Hcol Hnum Hr Hz.
  unfold add_noise, try_except.
  rewrite (add_noise_body_select data c a b _ w df (OneColumn s) Hdf)
    by now apply getitem_select.
  unfold bind at 1. cbn [is_numeric_selection]. rewrite Hnum.
  cbn [ret]. unfold bind at 1. rewrite Hr. cbn [ret].
  unfold bind at 1, bind at 1, np_random_seed.
  replace ((0 <=? z) && (z <? 2 ^ 32))%Z with false by (symmetry; lia).
  reflexivity.
Qed.

(** The body of [add_noise] once the three checks have passed and the seed
    is one numpy accepts: the generators are reseeded and the transform
    runs. *)
Lemma add_noise_body_checked (data : loc) (c : string) (a b : number)
    (seed : option Z) (w : World) (df : DataFrame) (s : Series) :
  frames w !! data = Some df ->
  getitem c df = Some s ->
  is_numeric_dtype s = true ->
  fle b a = false ->
  valid_seed seed ->
  add_noise_body data c a b seed w =
    bind (transform data c a b) (fun _ => ret data) (seed_world seed w).
Proof.
  intros Hdf Hcol Hnum Hr Hz.
  rewrite (add_noise_body_select data c a b _ w df (OneColumn s) Hdf)
    by now apply getitem_select.
  unfold bind at 1. cbn [is_numeric_selection]. rewrite Hnum.
  cbn [ret]. unfold bind at 1. rewrite Hr. cbn [ret].
  unfold bind at 1.
  assert (Hseed : match seed with
                  | Some z => bind (np_random_seed z) (fun _ => random_seed z)
                  | None => ret tt
                  end w = (inr tt, seed_world seed w)).
  { destruct seed as [z|]; [|reflexivity]. cbn in Hz.
    unfold bind, np_random_seed.
    replace ((0 <=? z) && (z <? 2 ^ 32))%Z with true by (symmetry; lia).
    reflexivity. }
  rewrite Hseed. reflexivity.
Qed.

Lemma frames_seed_world (seed : option Z) (w : World) :
  frames (seed_world seed w) = frames w.
Proof. destruct seed; reflexivity. Qed.

Lemma np_state_seed_world (seed : option Z) (w : World) :
  np_state (seed_world seed w) = seeded_state seed w.
Proof. destruct seed; reflexivity. Qed.

Lemma files_seed_world (seed : option Z) (w : World) :
  files (seed_world seed w) = files w.
Proof. destruct seed; reflexivity. Qed.

Lemma log_seed_world (seed : option Z) (w : World) :
  log (seed_world seed w) = log w.
Proof. destruct seed; reflexivity. Qed.

Lemma frames_noised_world (data : loc) (c : string) (a b : number)
    (df : DataFrame) (s : Series) (w : World) :
  frames (noised_world data c a b df s w) =
    <[data := setitem c (noised_series a b (np_state w) s) df]> (frames w).
Proof. reflexivity. Qed.

Lemma add_noise_success (data : loc) (c : string) (a b : number)
    (seed : option Z) (w : World) (df : DataFrame) (s : Series) :
  frames w !! data = Some df ->
  getitem c df = Some s ->
  is_numeric_dtype s = true ->
  fle b a = false ->
  valid_seed seed ->
  n_rows s = 0 \/ isfinite (fsub b a) = true ->
  add_noise data c a b seed w =
    (inr data, noised_world data c a b df s (seed_world seed w)).
Proof.
  intros Hdf Hcol Hnum Hr Hz Hok.
  unfold add_noise, try_except.
  rewrite (add_noise_body_checked data c a b seed w df s) by assumption.
  unfold bind at 1.
  rewrite (transform_run data c a b (seed_world seed w) df s);
    [reflexivity| |assumption|assumption|assumption].
  now rewrite frames_seed_world.
Qed.

(** The checks pass, the column has rows and the width of the range is not
    finite: the generators are reseeded, the first draw raises, the handler
    logs the exception as unexpected, and no frame is written. *)
Lemma add_noise_overflow (data : loc) (c : string) (a b : number)
    (seed : option Z) (w : World) (df : DataFrame) (s : Series) :
  frames w !! data = Some df ->
  getitem c df = Some s ->
  is_numeric_dtype s = true ->
  fle b a = false ->
  valid_seed seed ->
  0 < n_rows s ->
  isfinite (fsub b a) = false ->
  add_noise data c a b seed w =
    (inl RangeOverflow,
     logged ("An unexpected error occurred: " +:+ exn_msg RangeOverflow)
            (seed_world seed w)).
Proof.
  intros Hdf Hcol Hnum Hr Hz Hn Hfin.
  unfold add_noise, try_except.
  rewrite (add_noise_body_checked data c a b seed w df s) by assumption.
  unfold bind at 1.
  rewrite (transform_overflow data c a b (seed_world seed w) df s);
    [reflexivity| |assumption|assumption|assumption].
  now rewrite frames_seed_world.
Qed.

(** Every call falls under one of the cases. *)
Lemma add_noise_cases (data : loc) (c : string) (a b : number)
    (seed : option Z) (w : World) :
  (exists e msg, frames w !! data = None /\
     add_noise data c a b seed w = (inl e, logged msg w)) \/
  (exists df, frames w !! data = Some df /\
     (((c ∉ columns df) /\
       add_noise data c a b seed w =
         (inl (UnknownColumn c),
          logged ("ValueError: " +:+ exn_msg (UnknownColumn c)) w)) \/
      (exists x, select c df = Some x /\ is_numeric_selection x = false /\
         add_noise data c a b seed w =
           (inl (NonNumericColumn c),
            logged ("TypeError: " +:+ exn_msg (NonNumericColumn c)) w)) \/
      (exists s, getitem c df = Some s /\ is_numeric_dtype s = true /\
         ((fle b a = true /\
           add_noise data c a b seed w =
             (inl InvalidRange,
              logged ("ValueError: " +:+ exn_msg InvalidRange) w)) \/
          (fle b a = false /\
           (exists z, seed = Some z /\ ~ (0 <= z < 2 ^ 32)%Z) /\
           add_noise data c a b seed w =
             (inl InvalidSeed,
              logged ("ValueError: " +:+ exn_msg InvalidSeed) w)) \/
          (fle b a = false /\ valid_seed seed /\
           0 < n_rows s /\ isfinite (fsub b a) = false /\
           add_noise data c a b seed w =
             (inl RangeOverflow,
              logged ("An unexpected error occurred: "
                      +:+ exn_msg RangeOverflow) (seed_world seed w))) \/
          (fle b a = false /\ valid_seed seed /\
           (n_rows s = 0 \/ isfinite (fsub b a) = true) /\
           add_noise data c a b seed w =
             (inr data, noised_world data c a b df s (seed_world seed w))))))).
Proof.
  destruct (frames w !! data) as [df|] eqn:Hdf.
  2: { left. destruct (add_noise_dangling data c a b seed w Hdf) as (e & msg & H).
       eauto. }
  right. exists df. split; [reflexivity|].
  destruct (select c df) as [x|] eqn:Hx.
  2: { left. assert (Hc : c ∉ columns df).
       { rewrite select_in, Hx. intros [y Hy]. discriminate. }
       split; [exact Hc|]. now apply (add_noise_unknown _ _ _ _ _ _ df). }
  right. destruct (is_numeric_selection x) eqn:Hnum.
  2: { left. exists x. split; [reflexivity|]. split; [exact Hnum|].
       now apply (add_noise_refused_selection _ _ _ _ _ _ df x). }
  right. destruct x as [s|cols]; [|discriminate]. cbn in Hnum.
  apply getitem_select in Hx.
  exists s. split; [exact Hx|]. split; [exact Hnum|].
  destruct (fle b a) eqn:Hr.
  { left. split; [reflexivity|].
    now apply (add_noise_invalid_range _ _ _ _ _ _ df s). }
  right.
  assert (Hz : valid_seed seed \/ exists z, seed = Some z /\ ~ (0 <= z < 2 ^ 32)%Z).
  { destruct seed as [z|]; [|left; exact I].
    destruct (decide (0 <= z < 2 ^ 32)%Z); [left|right]; eauto. }
  destruct Hz as [Hz|(z & -> & Hz)].
  2: { left. split; [reflexivity|]. split; [eauto|].
       now apply (add_noise_invalid_seed _ _ _ _ _ _ df s). }
  right.
  destruct (isfinite (fsub b a)) eqn:Hfin.
  { right. split; [reflexivity|]. split; [exact Hz|]. split; [now right|].
    apply (add_noise_success _ _ _ _ _ _ df s); auto. }
  destruct (n_rows s) as [|n] eqn:Hn.
  - right. split; [reflexivity|]. split; [exact Hz|]. split; [now left|].
    apply (add_noise_success _ _ _ _ _ _ df s); auto.
  - left. split; [reflexivity|]. split; [exact Hz|]. split; [lia|].
    split; [reflexivity|].
    apply (add_noise_overflow _ _ _ _ _ _ df s); auto. lia.
Qed.

(** A call that returns has passed every check and run the transform. *)
Lemma add_noise_returns (data : loc) (c : string) (a b : number)
    (seed : option Z) (w w' : World) (r : loc) :
  add_noise data c a b seed w = (inr r, w') ->
  exists df s,
    frames w !! data = Some df /\ getitem c df = Some s /\
    is_numeric_dtype s = true /\ fle b a = false /\ valid_seed seed /\
    (n_rows s = 0 \/ isfinite (fsub b a) = true) /\
    r = data /\ w' = noised_world data c a b df s (seed_world seed w).
Proof.
  intros Hrun.
  destruct (add_noise_cases data c a b seed w)
    as [(e & msg & _ & H)
       |(df & Hdf & [[_ H]|[(x & _ & _ & H)
           |(s & Hcol & Hnum & [[_ H]|[(_ & _ & H)
               |[(_ & _ & _ & _ & H)|(Hr & Hz & Hok & H)]]])]])];
    rewrite H in Hrun; try discriminate.
  injection Hrun as <- <-. exists df, s. repeat split; assumption.
Qed.

(** A call that raises has written no frame and no file: the state is the
    initial one, reseeded or not, with one [ERROR] record more. *)
Lemma add_noise_raises (data : loc) (c : string) (a b : number)
    (seed : option Z) (w w' : World) (e : exn) :
  add_noise data c a b seed w = (inl e, w') ->
  exists msg, w' = logged msg w \/ w' = logged msg (seed_world seed w).
Proof.
  intros Hrun.
  destruct (add_noise_cases data c a b seed w)
    as [(e0 & msg & _ & H)
       |(df & Hdf & [[_ H]|[(x & _ & _ & H)
           |(s & Hcol & Hnum & [[_ H]|[(_ & _ & H)
               |[(_ & _ & _ & _ & H)|(Hr & Hz & Hok & H)]]])]])];
    rewrite H in Hrun; try discriminate;
    injection Hrun as _ <-; eexists; (left; reflexivity) || (right; reflexivity).
Qed.

Lemma add_noise_raises_frames (data : loc) (c : string) (a b : number)
    (seed : option Z) (w w' : World) (e : exn) :
  add_noise data c a b seed w = (inl e, w') ->
  frames w' = frames w /\ files w' = files w /\
  exists msg, last (log w') = Some (Log ERROR msg).
Proof.
  intros Hrun. destruct (add_noise_raises _ _ _ _ _ _ _ _ Hrun) as [msg [-> | ->]].
  - repeat split. exists msg. apply last_snoc.
  - cbn. rewrite frames_seed_world, files_seed_world.
    repeat split. exists msg. apply last_snoc.
Qed.

(** ** Rows of the noised column *)

Lemma noised_series_row (a b : number) (st : rng) (s : Series) (i : nat)
    (v : number) :
  is_numeric_dtype s = true ->
  (cells s !! i ≫= to_number) = Some v ->
  (cells (noised_series a b st s) !! i ≫= to_number) =
    Some (fmul v (fadd (of_int 1) (nth_uniform a b st i))).
Proof.
  intros Hnum Hv. unfold noised_series.
  destruct (cells s) as [|x xs] eqn:Ec.
  - discriminate.
  - rewrite <- Ec in Hv. rewrite (numeric_row s i Hnum) in Hv.
    cbn [cells]. rewrite list_lookup_fmap, list_lookup_imap, Hv. reflexivity.
Qed.

Lemma noised_series_n_rows (a b : number) (st : rng) (s : Series) :
  is_numeric_dtype s = true -> n_rows (noised_series a b st s) = n_rows s.
Proof.
  intros Hnum. unfold noised_series.
  destruct (cells s) as [|x xs] eqn:Ec; [reflexivity|].
  unfold n_rows at 1. cbn [cells].
  rewrite length_map, length_imap. now apply numbers_length.
Qed.

Lemma noised_series_numeric (a b : number) (st : rng) (s : Series) :
  is_numeric_dtype s = true -> is_numeric_dtype (noised_series a b st s) = true.
Proof. intros H. unfold noised_series. now destruct (cells s). Qed.

Lemma cell_number_column (df : DataFrame) (c : string) (s : Series) (i : nat) :
  getitem c df = Some s -> cell_number df c i = (cells s !! i ≫= to_number).
Proof. intros H. unfold cell_number, cell. rewrite H. reflexivity. Qed.


(** The frame a returning call leaves behind the reference it was given. *)
Lemma add_noise_result_frame (data : loc) (c : string) (a b : number)
    (seed : option Z) (w w' : World) (r : loc) (df : DataFrame) :
  frames w !! data = Some df ->
  add_noise data c a b seed w = (inr r, w') ->
  exists s,
    getitem c df = Some s /\ is_numeric_dtype s = true /\ r = data /\
    frames w' =
      <[data := setitem c (noised_series a b (seeded_state seed w) s) df]> (frames w) /\
    frames w' !! r =
      Some (setitem c (noised_series a b (seeded_state seed w) s) df).
Proof.
  intros Hdf Hrun.
  destruct (add_noise_returns _ _ _ _ _ _ _ _ Hrun)
    as (df0 & s & Hdf0 & Hcol & Hnum & _ & _ & _ & -> & ->).
  assert (df0 = df) as -> by congruence.
  exists s. rewrite frames_noised_world, np_state_seed_world, frames_seed_world.
  repeat split; try assumption. apply lookup_insert_eq.
Qed.



(** ** One call after another *)

Lemma iter_state_add (n i : nat) (st : rng) :
  iter_state i (iter_state n st) = iter_state (n + i) st.
Proof. revert st. induction n as [|n IH]; intros st; cbn; [reflexivity|apply IH]. Qed.

Lemma nth_uniform_shift (a b : number) (n i : nat) (st : rng) :
  nth_uniform a b (iter_state n st) i = nth_uniform a b st (n + i).
Proof. unfold nth_uniform. now rewrite iter_state_add. Qed.

(** The state of numpy's generator after a returning call. *)
Lemma add_noise_np_state (data : loc) (c : string) (a b : number)
    (seed : option Z) (w w' : World) (r : loc) (df : DataFrame) (s : Series) :
  frames w !! data = Some df ->
  getitem c df = Some s ->
  add_noise data c a b seed w = (inr r, w') ->
  np_state w' = iter_state (n_rows s) (seeded_state seed w).
Proof.
  intros Hdf Hcol Hrun.
  destruct (add_noise_returns _ _ _ _ _ _ _ _ Hrun)
    as (df0 & s0 & Hdf0 & Hcol0 & _ & _ & _ & _ & _ & ->).
  assert (df0 = df) as -> by congruence.
  assert (s0 = s) as -> by congruence.
  unfold noised_world. cbn [np_state set_frames set_np_state].
  now rewrite np_state_seed_world.
Qed.

(** The call after a returning call: it returns as well for a range the
    check accepts whose width is finite and a seed numpy accepts, and every
    row carries both factors. *)
Lemma add_noise_second_call (data : loc) (c : string) (a b a2 b2 : number)
    (seed seed2 : option Z) (w w1 : World) (r : loc) (df : DataFrame) :
  frames w !! data = Some df ->
  add_noise data c a b seed w = (inr r, w1) ->
  fle b2 a2 = false ->
  valid_seed seed2 ->
  (forall s, getitem c df = Some s ->
     n_rows s = 0 \/ isfinite (fsub b2 a2) = true) ->
  exists w2 df2,
    add_noise data c a2 b2 seed2 w1 = (inr data, w2) /\
    frames w2 !! data = Some df2 /\
    forall i v, cell_number df c i = Some v ->
      cell_number df2 c i =
        Some (fmul (fmul v (fadd (of_int 1) (nth_uniform a b (seeded_state seed w) i)))
                   (fadd (of_int 1) (nth_uniform a2 b2 (seeded_state seed2 w1) i))).
Proof.
  intros Hdf Hrun Hr2 Hz2 Hok2.
  destruct (add_noise_result_frame _ _ _ _ _ _ _ _ _ Hdf Hrun)
    as (s & Hcol & Hnum & -> & _ & Hout).
  set (s1 := noised_series a b (seeded_state seed w) s) in *.
  assert (Hnum1 : is_numeric_dtype s1 = true) by now apply noised_series_numeric.
  assert (Hcol1 : getitem c (setitem c s1 df) = Some s1)
    by exact (getitem_setitem_eq c s1 s df Hcol).
  assert (Hrun2 : add_noise data c a2 b2 seed2 w1 =
            (inr data, noised_world data c a2 b2 (setitem c s1 df) s1
                         (seed_world seed2 w1))).
  { apply add_noise_success; try assumption.
    destruct (Hok2 s Hcol) as [Hn|Hfin]; [left|now right].
    unfold s1. now rewrite noised_series_n_rows. }
  eexists. eexists. split; [exact Hrun2|]. split.
  - rewrite frames_noised_world. apply lookup_insert_eq.
  - intros i v Hv. rewrite (cell_number_column df c s i Hcol) in Hv.
    rewrite (cell_number_column _ c _ i
               (getitem_setitem_eq c _ s1 _ Hcol1)).
    rewrite np_state_seed_world.
    apply noised_series_row; [exact Hnum1|].
    now apply noised_series_row.
Qed.

(** ** The checks as a function *)

Lemma validate_class (df : DataFrame) (c : string) (a b : number)
    (seed : option Z) (e : exn) :
  validate df c a b seed = Some e ->
  exn_cls e = ValueError \/ exn_cls e = TypeError.
Proof.
  unfold validate. intros H.
  destruct (select c df) as [x|]; [|injection H as <-; now left].
  destruct (is_numeric_selection x); cbn in H; [|injection H as <-; now right].
  destruct (fle b a); [injection H as <-; now left|].
  destruct seed as [z|]; [|discriminate].
  destruct ((0 <=? z) && (z <? 2 ^ 32))%Z; [discriminate|].
  injection H as <-. now left.
Qed.

Lemma validate_raises (data : loc) (c : string) (a b : number)
    (seed : option Z) (w : World) (df : DataFrame) (e : exn) :
  frames w !! data = Some df ->
  validate df c a b seed = Some e ->
  add_noise data c a b seed w =
    (inl e, logged (exn_class_name (exn_cls e) +:+ ": " +:+ exn_msg e) w).
Proof.
  intros Hdf H. unfold validate in H.
  destruct (select c df) as [x|] eqn:Hx.
  2: { injection H as <-. apply (add_noise_unknown data c a b seed w df Hdf).
       rewrite select_in, Hx. intros [y Hy]. discriminate. }
  destruct (is_numeric_selection x) eqn:Hnum; cbn in H.
  2: { injection H as <-.
       now apply (add_noise_refused_selection data c a b seed w df x). }
  destruct x as [s|cols]; [|discriminate]. cbn in Hnum.
  apply getitem_select in Hx.
  destruct (fle b a) eqn:Hr.
  { injection H as <-. now apply (add_noise_invalid_range data c a b seed w df s). }
  destruct seed as [z|]; [|discriminate].
  destruct ((0 <=? z) && (z <? 2 ^ 32))%Z eqn:Hz; [discriminate|].
  injection H as <-.
  apply (add_noise_invalid_seed data c a b z w df s); try assumption. lia.
Qed.

(** The checks pass: the column is a numeric [Series], the range and the
    seed are accepted. *)
Lemma validate_passes (df : DataFrame) (c : string) (a b : number)
    (seed : option Z) :
  validate df c a b seed = None <->
  exists s, getitem c df = Some s /\ is_numeric_dtype s = true /\
            fle b a = false /\ valid_seed seed.
Proof.
  unfold validate. split.
  - intros H. destruct (select c df) as [x|] eqn:Hx; [|discriminate].
    destruct (is_numeric_selection x) eqn:Hnum; cbn in H; [|discriminate].
    destruct x as [s|cols]; [|discriminate]. cbn in Hnum.
    apply getitem_select in Hx.
    destruct (fle b a) eqn:Hr; [discriminate|].
    exists s. repeat split; try assumption.
    destruct seed as [z|]; [|exact I]. cbn.
    destruct ((0 <=? z) && (z <? 2 ^ 32))%Z eqn:Hz; [lia|discriminate].
  - intros (s & Hcol & Hnum & Hr & Hz). apply getitem_select in Hcol.
    rewrite Hcol. cbn [is_numeric_selection]. rewrite Hnum, Hr. cbn.
    destruct seed as [z|]; [|reflexivity]. cbn in Hz.
    now replace ((0 <=? z) && (z <? 2 ^ 32))%Z with true by (symmetry; lia).
Qed.

(** ** [main] *)

Lemma main_handler_run (args : Args) (e : exn) (w : World) :
  exists msg, main_handler args e w = (inr tt, logged msg w).
Proof.
  unfold main_handler.
  destruct (isinstance e FileNotFoundError);
    [|destruct (isinstance e EmptyDataError)]; eexists; reflexivity.
Qed.

(** When the reader raises, [main] logs the error and writes no file. *)
Lemma main_read_fails (args : Args) (w : World) (e : exn) :
  (forall w0, files w0 = files w -> pd_read_csv (input_file args) w0 = (inl e, w0)) ->
  exists w' msg,
    main args w = (inr tt, w') /\
    files w' = files w /\
    last (log w') = Some (Log ERROR msg).
Proof.
  intros Hread. unfold main, try_except, main_body, bind at 1, logging at 1.
  unfold bind at 1. rewrite Hread by reflexivity.
  destruct (main_handler_run args e
              (set_log (log w ++ [Log INFO ("Reading input file: " +:+ input_file args)]) w))
    as [msg ->].
  eexists. exists msg. split; [reflexivity|]. split; [reflexivity|].
  apply last_snoc.
Qed.

(** [main] up to the call of [add_noise], for a file that parses. *)
Lemma main_parsed (args : Args) (w : World) (text : string) (df : DataFrame) :
  files w !! input_file args = Some text -> text <> "" ->
  parse_csv text = inr df ->
  main args w =
    match add_noise (fresh (dom (frames w))) (column_name args) (min_noise args)
            (max_noise args) (seed args)
            (mkWorld (<[fresh (dom (frames w)) := df]> (frames w))
               (np_state w) (py_state w)
               ((log w ++ [Log INFO ("Reading input file: " +:+ input_file args)])
                  ++ [Log INFO ("Adding noise to column: " +:+ column_name args)])
               (files w))
    with
    | (inl e, w4) => main_handler args e w4
    | (inr r, w4) =>
        try_except
          (bind (logging INFO ("Saving output to: " +:+ output_file args))
             (fun _ => bind (to_csv r (output_file args))
                (fun _ => logging INFO "Data masking completed successfully.")))
          (main_handler args) w4
    end.
Proof.
  intros Hfile Htext Hparse. destruct w as [fr np py lg fl].
  cbn [frames np_state py_state log files] in *.
  unfold main, try_except at 1, main_body, bind at 1, logging at 1.
  unfold bind at 1, pd_read_csv.
  cbn [frames np_state py_state log files set_log]. rewrite Hfile.
  rewrite bool_decide_eq_false_2 by exact Htext. rewrite Hparse.
  unfold bind at 1, logging at 1. unfold bind at 1.
  unfold set_log, set_frames. cbn [frames np_state py_state log files].
  match goal with
  | |- context [add_noise ?l ?c ?a ?b ?sd ?w0] =>
      destruct (add_noise l c a b sd w0) as [[e|r] w4]
  end; reflexivity.
Qed.


Lemma main_rejected_run (args : Args) (w : World) (text : string)
    (df : DataFrame) (e : exn) :
  files w !! input_file args = Some text -> text <> "" ->
  parse_csv text = inr df ->
  validate df (column_name args) (min_noise args) (max_noise args) (seed args)
    = Some e ->
  exists w',
    main args w = (inr tt, w') /\
    files w' = files w /\
    log w' =
      (log w ++
       [Log INFO ("Reading input file: " +:+ input_file args);
        Log INFO ("Adding noise to column: " +:+ column_name args);
        Log ERROR (exn_class_name (exn_cls e) +:+ ": " +:+ exn_msg e);
        Log ERROR ("An error occurred: " +:+ exn_msg e)])%list.
Proof.
  intros Hfile Htext Hparse Hv.
  rewrite (main_parsed args w text df Hfile Htext Hparse).
  rewrite (validate_raises _ _ _ _ _ _ df e) by (try apply lookup_insert_eq; exact Hv).
  assert (Hh : main_handler args e =
                 logging ERROR ("An error occurred: " +:+ exn_msg e)).
  { unfold main_handler, isinstance.
    destruct (validate_class _ _ _ _ _ _ Hv) as [-> | ->]; reflexivity. }
  rewrite Hh. eexists. split; [reflexivity|]. split; [reflexivity|].
  cbn. now rewrite <- !app_assoc.
Qed.

(** The checks pass and the first draw overflows: the exception is logged
    by [add_noise] as unexpected and by [main] as an error; nothing is
    written. *)
Lemma main_overflow_run (args : Args) (w : World) (text : string)
    (df : DataFrame) (s : Series) :
  files w !! input_file args = Some text -> text <> "" ->
  parse_csv text = inr df ->
  getitem (column_name args) df = Some s ->
  is_numeric_dtype s = true ->
  fle (max_noise args) (min_noise args) = false ->
  valid_seed (seed args) ->
  0 < n_rows s ->
  isfinite (fsub (max_noise args) (min_noise args)) = false ->
  exists w',
    main args w = (inr tt, w') /\
    files w' = files w /\
    log w' =
      (log w ++
       [Log INFO ("Reading input file: " +:+ input_file args);
        Log INFO ("Adding noise to column: " +:+ column_name args);
        Log ERROR ("An unexpected error occurred: " +:+ exn_msg RangeOverflow);
        Log ERROR ("An error occurred: " +:+ exn_msg RangeOverflow)])%list.
Proof.
  intros Hfile Htext Hparse Hcol Hnum Hr Hz Hn Hfin.
  rewrite (main_parsed args w text df Hfile Htext Hparse).
  rewrite (add_noise_overflow _ _ _ _ _ _ df s)
    by (try apply lookup_insert_eq; assumption).
  eexists. split; [reflexivity|]. split.
  - destruct (seed args); reflexivity.
  - destruct (seed args); cbn; now rewrite <- !app_assoc.
Qed.

Lemma main_accepted_run (args : Args) (w : World) (text : string)
    (df : DataFrame) (s : Series) :
  files w !! input_file args = Some text -> text <> "" ->
  parse_csv text = inr df ->
  getitem (column_name args) df = Some s ->
  is_numeric_dtype s = true ->
  fle (max_noise args) (min_noise args) = false ->
  valid_seed (seed args) ->
  n_rows s = 0 \/ isfinite (fsub (max_noise args) (min_noise args)) = true ->
  write_error (output_file args) = None ->
  exists w',
    main args w = (inr tt, w') /\
    files w' = <[output_file args := format_csv (noised_frame args w df s)]> (files w) /\
    log w' =
      (log w ++
       [Log INFO ("Reading input file: " +:+ input_file args);
        Log INFO ("Adding noise to column: " +:+ column_name args);
        Log INFO ("Saving output to: " +:+ output_file args);
        Log INFO "Data masking completed successfully."])%list.
Proof.
  intros Hfile Htext Hparse Hcol Hnum Hr Hz Hok Hwr.
  rewrite (main_parsed args w text df Hfile Htext Hparse).
  rewrite (add_noise_success _ _ _ _ _ _ df s)
    by (try apply lookup_insert_eq; assumption).
  unfold try_except, bind at 1, logging at 1. unfold bind at 1, to_csv.
  unfold bind at 1, deref.
  cbn [frames set_log]. rewrite frames_noised_world, lookup_insert_eq, Hwr.
  eexists. split; [reflexivity|]. split.
  - unfold noised_frame. destruct (seed args); reflexivity.
  - destruct (seed args); cbn; now rewrite <- !app_assoc.
Qed.

(** [add_noise] returns and the output path cannot be opened: [main] logs
    the exception of [to_csv] and writes nothing. *)
Lemma main_write_fails (args : Args) (w : World) (text : string)
    (df : DataFrame) (s : Series) (e : exn) :
  files w !! input_file args = Some text -> text <> "" ->
  parse_csv text = inr df ->
  getitem (column_name args) df = Some s ->
  is_numeric_dtype s = true ->
  fle (max_noise args) (min_noise args) = false ->
  valid_seed (seed args) ->
  n_rows s = 0 \/ isfinite (fsub (max_noise args) (min_noise args)) = true ->
  write_error (output_file args) = Some e ->
  exists w',
    main args w = (inr tt, w') /\
    files w' = files w /\
    log w' =
      (log w ++
       [Log INFO ("Reading input file: " +:+ input_file args);
        Log INFO ("Adding noise to column: " +:+ column_name args);
        Log INFO ("Saving output to: " +:+ output_file args);
        Log ERROR
          (if isinstance e FileNotFoundError
           then "Input file not found: " +:+ input_file args
           else if isinstance e EmptyDataError
           then "Input file is empty: " +:+ input_file args
           else "An error occurred: " +:+ exn_msg e)])%list.
Proof.
  intros Hfile Htext Hparse Hcol Hnum Hr Hz Hok Hwr.
  rewrite (main_parsed args w text df Hfile Htext Hparse).
  rewrite (add_noise_success _ _ _ _ _ _ df s)
    by (try apply lookup_insert_eq; assumption).
  unfold try_except, bind at 1, logging at 1. unfold bind at 1, to_csv.
  unfold bind at 1, deref.
  cbn [frames set_log]. rewrite frames_noised_world, lookup_insert_eq, Hwr.
  unfold raise, main_handler.
  destruct (isinstance e FileNotFoundError);
    [|destruct (isinstance e EmptyDataError)];
    (eexists; split; [reflexivity|]; split;
     [destruct (seed args); reflexivity
     |destruct (seed args); cbn; now rewrite <- !app_assoc]).
Qed.

Lemma draws_complete_true (a b : number) (s : Series) :
  draws_complete a b s = true <-> n_rows s = 0 \/ isfinite (fsub b a) = true.
Proof.
  unfold draws_complete. rewrite orb_true_iff, Nat.eqb_eq. reflexivity.
Qed.

Lemma draws_complete_false (a b : number) (s : Series) :
  draws_complete a b s = false <-> 0 < n_rows s /\ isfinite (fsub b a) = false.
Proof.
  unfold draws_complete. rewrite orb_false_iff, Nat.eqb_neq. split.
  - intros [H1 H2]. split; [lia|exact H2].
  - intros [H1 H2]. split; [lia|exact H2].
Qed.

(** The file system [main] leaves, as a function of what it found. *)
Lemma main_files (args : Args) (w : World) :
  files (snd (main args w)) =
    match files w !! input_file args with
    | None => files w
    | Some text =>
        if bool_decide (text = "") then files w
        else match parse_csv text with
             | inl _ => files w
             | inr df =>
                 match validate df (column_name args) (min_noise args)
                         (max_noise args) (seed args),
                       getitem (column_name args) df,
                       write_error (output_file args) with
                 | None, Some s, None =>
                     if draws_complete (min_noise args) (max_noise args) s
                     then <[output_file args :=
                              format_csv (noised_frame args w df s)]> (files w)
                     else files w
                 | _, _, _ => files w
                 end
             end
    end.
Proof.
  destruct (files w !! input_file args) as [text|] eqn:Hfile.
  2: { destruct (main_read_fails args w
                   (Exn FileNotFoundError
                      ("[Errno 2] No such file or directory: '"
                       +:+ input_file args +:+ "'")))
         as (w' & msg & -> & Hf & _); [|exact Hf].
       intros w0 Hw0. unfold pd_read_csv. now rewrite Hw0, Hfile. }
  case_bool_decide as Htext.
  { destruct (main_read_fails args w
                (Exn EmptyDataError "No columns to parse from file"))
      as (w' & msg & -> & Hf & _); [|exact Hf].
    intros w0 Hw0. unfold pd_read_csv. rewrite Hw0, Hfile.
    now rewrite bool_decide_eq_true_2. }
  destruct (parse_csv text) as [e|df] eqn:Hparse.
  { destruct (main_read_fails args w e) as (w' & msg & -> & Hf & _); [|exact Hf].
    intros w0 Hw0. unfold pd_read_csv. rewrite Hw0, Hfile.
    rewrite bool_decide_eq_false_2 by exact Htext. now rewrite Hparse. }
  destruct (validate df (column_name args) (min_noise args) (max_noise args)
              (seed args)) as [e|] eqn:Hv.
  - destruct (main_rejected_run args w text df e Hfile Htext Hparse Hv)
      as (w' & -> & Hf & _). exact Hf.
  - destruct (proj1 (validate_passes _ _ _ _ _) Hv)
      as (s & Hcol & Hnum & Hr & Hz).
    rewrite Hcol.
    destruct (draws_complete (min_noise args) (max_noise args) s) eqn:Hd.
    + apply draws_complete_true in Hd.
      destruct (write_error (output_file args)) as [e|] eqn:Hwr.
      * destruct (main_write_fails args w text df s e Hfile Htext Hparse Hcol
                    Hnum Hr Hz Hd Hwr) as (w' & -> & Hf & _). exact Hf.
      * destruct (main_accepted_run args w text df s Hfile Htext Hparse Hcol
                    Hnum Hr Hz Hd Hwr) as (w' & -> & Hf & _). exact Hf.
    + apply draws_complete_false in Hd as [Hn Hfin].
      destruct (main_overflow_run args w text df s Hfile Htext Hparse Hcol
                  Hnum Hr Hz Hn Hfin) as (w' & -> & Hf & _).
      destruct (write_error (output_file args)); exact Hf.
Qed.

(** The frame a returning call writes, read through [getitem]: the labels
    and the other columns are as before, the target column has as many rows
    and row [i] is the input row scaled by one plus the [i]-th draw. *)
Lemma setitem_noised (c : string) (a b : number) (st : rng) (df : DataFrame)
    (s : Series) :
  getitem c df = Some s ->
  is_numeric_dtype s = true ->
  columns (setitem c (noised_series a b st s) df) = columns df /\
  (forall c', c' <> c ->
     getitem c' (setitem c (noised_series a b st s) df) = getitem c' df) /\
  (exists s', getitem c (setitem c (noised_series a b st s) df) = Some s' /\
              n_rows s' = n_rows s) /\
  (forall i v, cell_number df c i = Some v ->
     cell_number (setitem c (noised_series a b st s) df) c i =
       Some (fmul v (fadd (of_int 1) (nth_uniform a b st i)))).
Proof.
  intros Hcol Hnum.
  pose proof (getitem_setitem_eq c (noised_series a b st s) s df Hcol) as Hget.
  split; [apply columns_setitem; exact (getitem_in c df s Hcol)|].
  split; [intros c' Hne; now apply getitem_setitem_ne|].
  split; [eexists; split; [exact Hget|now apply noised_series_n_rows]|].
  intros i v Hv. rewrite (cell_number_column df c s i Hcol) in Hv.
  rewrite (cell_number_column _ c _ i Hget).
  now apply noised_series_row.
Qed.


(** Every run of [main] on parsed arguments returns, having either left
    the file system alone and logged an error last, or written the output
    file and logged the completion last. *)
Lemma main_returns (args : Args) (w : World) :
  exists w',
    main args w = (inr tt, w') /\
    ((files w' = files w /\
      exists msg, last (log w') = Some (Log ERROR msg)) \/
     (exists bytes,
        files w' = <[output_file args := bytes]> (files w) /\
        last (log w') = Some (Log INFO "Data masking completed successfully."))).
Proof.
  assert (Hread : forall e,
            (forall w0, files w0 = files w ->
                        pd_read_csv (input_file args) w0 = (inl e, w0)) ->
            exists w',
              main args w = (inr tt, w') /\
              ((files w' = files w /\
                exists msg, last (log w') = Some (Log ERROR msg)) \/
               (exists bytes,
                  files w' = <[output_file args := bytes]> (files w) /\
                  last (log w') =
                    Some (Log INFO "Data masking completed successfully.")))).
  { intros e He. destruct (main_read_fails args w e He) as (w' & msg & H1 & H2 & H3).
    exists w'. split; [exact H1|]. left. eauto. }
  destruct (files w !! input_file args) as [text|] eqn:Hfile.
  2: { eapply Hread. intros w0 Hw0. unfold pd_read_csv. now rewrite Hw0, Hfile. }
  destruct (decide (text = "")) as [->|Htext].
  { eapply Hread. intros w0 Hw0. unfold pd_read_csv. now rewrite Hw0, Hfile. }
  destruct (parse_csv text) as [e|df] eqn:Hparse.
  { apply (Hread e). intros w0 Hw0. unfold pd_read_csv. rewrite Hw0, Hfile.
    rewrite bool_decide_eq_false_2 by exact Htext. now rewrite Hparse. }
  destruct (validate df (column_name args) (min_noise args) (max_noise args)
              (seed args)) as [e|] eqn:Hv.
  { destruct (main_rejected_run args w text df e Hfile Htext Hparse Hv)
      as (w' & Hrun & Hf & Hlog).
    exists w'. split; [exact Hrun|]. left. split; [exact Hf|].
    eexists. rewrite Hlog, last_app. reflexivity. }
  destruct (proj1 (validate_passes _ _ _ _ _) Hv) as (s & Hcol & Hnum & Hr & Hz).
  destruct (draws_complete (min_noise args) (max_noise args) s) eqn:Hd.
  - apply draws_complete_true in Hd.
    destruct (write_error (output_file args)) as [e|] eqn:Hwr.
    + destruct (main_write_fails args w text df s e Hfile Htext Hparse Hcol
                  Hnum Hr Hz Hd Hwr) as (w' & Hrun & Hf & Hlog).
      exists w'. split; [exact Hrun|]. left. split; [exact Hf|].
      eexists. rewrite Hlog, last_app. reflexivity.
    + destruct (main_accepted_run args w text df s Hfile Htext Hparse Hcol
                  Hnum Hr Hz Hd Hwr) as (w' & Hrun & Hf & Hlog).
      exists w'. split; [exact Hrun|]. right. eexists. split; [exact Hf|].
      rewrite Hlog, last_app. reflexivity.
  - apply draws_complete_false in Hd as [Hn Hfin].
    destruct (main_overflow_run args w text df s Hfile Htext Hparse Hcol
                Hnum Hr Hz Hn Hfin) as (w' & Hrun & Hf & Hlog).
    exists w'. split; [exact Hrun|]. left. split; [exact Hf|].
    eexists. rewrite Hlog, last_app. reflexivity.
Qed.

(** ** The claims that hold for every number system *)


(** C3. The checks of [add_noise] run in order and before any write.  A
    label the frame does not have fails with [UnknownColumn] whatever the
    rest; a label whose column has a non-numeric dtype (in particular one
    holding a non-numeric value), or that several columns carry, fails with
    [NonNumericColumn] whatever the range; a present numeric column fails
    with [InvalidRange] when [min_noise >= max_noise] holds.  Each of the
    three leaves the state as it was with one [ERROR] record more, and a
    call that raises for whatever reason leaves every frame and every file
    as it was. *)
Theorem add_noise_checks_in_order (data : loc) (c : string) (a b : number)
    (seed : option Z) (w : World) (df : DataFrame) :
  frames w !! data = Some df ->
  (c ∉ columns df ->
     add_noise data c a b seed w =
       (inl (UnknownColumn c),
        logged ("ValueError: " +:+ exn_msg (UnknownColumn c)) w)) /\
  (forall s, getitem c df = Some s ->
     is_numeric_dtype s = false \/ (exists i, row_values s !! i = Some None) ->
     add_noise data c a b seed w =
       (inl (NonNumericColumn c),
        logged ("TypeError: " +:+ exn_msg (NonNumericColumn c)) w)) /\
  (c ∈ columns df -> getitem c df = None ->
     add_noise data c a b seed w =
       (inl (NonNumericColumn c),
        logged ("TypeError: " +:+ exn_msg (NonNumericColumn c)) w)) /\
  (forall s, getitem c df = Some s ->
     is_numeric_dtype s = true -> fle b a = true ->
     add_noise data c a b seed w =
       (inl InvalidRange,
        logged ("ValueError: " +:+ exn_msg InvalidRange) w)) /\
  (forall e, fst (add_noise data c a b seed w) = inl e ->
     frames (snd (add_noise data c a b seed w)) = frames w /\
     files (snd (add_noise data c a b seed w)) = files w).
Proof.
  intros Hdf. split; [|split; [|split; [|split]]].
  - intros Hc. now apply (add_noise_unknown data c a b seed w df).
  - intros s Hcol Hbad.
    assert (Hnum : is_numeric_dtype s = false).
    { destruct Hbad as [H|[i H]]; [exact H|]. now apply (non_numeric_value s i). }
    now apply (add_noise_non_numeric data c a b seed w df s).
  - intros Hin Hnone.
    destruct (getitem_repeated c df Hin Hnone) as [cols Hx].
    now apply (add_noise_refused_selection data c a b seed w df (SubFrame cols)).
  - intros s Hcol Hnum Hr.
    now apply (add_noise_invalid_range data c a b seed w df s).
  - intros e He.
    destruct (add_noise data c a b seed w) as [res w'] eqn:Hrun.
    cbn [fst snd] in *. subst res.
    destruct (add_noise_raises_frames _ _ _ _ _ _ _ _ Hrun) as (H1 & H2 & _).
    split; assumption.
Qed.



(** C9. [add_noise] works in place: the reference it returns is the one it
    was given, and when the call returns the frame behind the caller's
    reference answers [df[c]] with the noised column, row [i] being the
    input row scaled by one plus the [i]-th draw.  No frame object is
    created and no other frame object is touched, so nothing in the store
    keeps the column as it was. *)
Theorem add_noise_in_place (data : loc) (c : string) (a b : number)
    (seed : option Z) (w w' : World) (r : loc) (df : DataFrame) :
  frames w !! data = Some df ->
  add_noise data c a b seed w = (inr r, w') ->
  r = data /\
  (exists df' s s',
     frames w' !! data = Some df' /\
     getitem c df = Some s /\
     getitem c df' = Some s' /\
     n_rows s' = n_rows s /\
     forall i v, cell_number df c i = Some v ->
       cell_number df' c i =
         Some (fmul v (fadd (of_int 1)
                         (nth_uniform a b (seeded_state seed w) i)))) /\
  dom (frames w') = dom (frames w) /\
  (forall l, l <> data -> frames w' !! l = frames w !! l).
Proof.
  intros Hdf Hrun.
  destruct (add_noise_result_frame _ _ _ _ _ _ _ _ _ Hdf Hrun)
    as (s & Hcol & Hnum & -> & Hfr & Hout).
  pose proof (getitem_setitem_eq c
                (noised_series a b (seeded_state seed w) s) s df Hcol) as Hget.
  split; [reflexivity|]. split; [|split].
  - eexists. exists s. eexists. split; [exact Hout|]. split; [exact Hcol|].
    split; [exact Hget|]. split; [now apply noised_series_n_rows|].
    intros i v Hv. rewrite (cell_number_column df c s i Hcol) in Hv.
    rewrite (cell_number_column _ c _ i Hget).
    now apply noised_series_row.
  - rewrite Hfr. apply dom_insert_lookup_L. eauto.
  - intros l Hne. rewrite Hfr. now apply lookup_insert_ne.
Qed.

(** ** Further properties that hold for every number system *)

(** X1. A call returns exactly when the checks the code makes pass and the
    transform completes: the label is carried by one column, its dtype is
    numeric, [min_noise >= max_noise] is false, the seed is absent or one
    numpy accepts, and the column has no row or the width of the range is
    finite.  In every other case it raises. *)
Theorem add_noise_returns_iff (data : loc) (c : string) (a b : number)
    (seed : option Z) (w : World) (df : DataFrame) :
  frames w !! data = Some df ->
  (exists r w', add_noise data c a b seed w = (inr r, w')) <->
  (exists s, getitem c df = Some s /\ is_numeric_dtype s = true /\
             fle b a = false /\ valid_seed seed /\
             (n_rows s = 0 \/ isfinite (fsub b a) = true)).
Proof.
  intros Hdf. split.
  - intros (r & w' & Hrun).
    destruct (add_noise_returns _ _ _ _ _ _ _ _ Hrun)
      as (df0 & s & Hdf0 & Hcol & Hnum & Hr & Hz & Hok & _).
    assert (df0 = df) as -> by congruence. exists s. auto.
  - intros (s & Hcol & Hnum & Hr & Hz & Hok). eexists. eexists.
    now apply (add_noise_success data c a b seed w df s).
Qed.

(** X6. A boolean column passes the dtype check: [True] is scaled as 1 and
    [False] as 0. *)
Theorem add_noise_bool_column (data : loc) (c : string) (a b : number)
    (seed : option Z) (w : World) (df : DataFrame) (bs : list bool) :
  frames w !! data = Some df ->
  getitem c df = Some (BoolSeries bs) ->
  fle b a = false ->
  valid_seed seed ->
  bs = [] \/ isfinite (fsub b a) = true ->
  exists w' df',
    add_noise data c a b seed w = (inr data, w') /\
    frames w' !! data = Some df' /\
    forall i (x : bool), bs !! i = Some x ->
      cell_number df' c i =
        Some (fmul (of_int (if x then 1 else 0))
                   (fadd (of_int 1) (nth_uniform a b (seeded_state seed w) i))).
Proof.
  intros Hdf Hcol Hr Hz Hok.
  assert (Hrun : add_noise data c a b seed w =
            (inr data, noised_world data c a b df (BoolSeries bs) (seed_world seed w))).
  { apply add_noise_success; try assumption; [reflexivity|].
    destruct Hok as [-> | Hfin]; [now left|now right]. }
  eexists. eexists. split; [exact Hrun|]. split.
  - rewrite frames_noised_world. apply lookup_insert_eq.
  - intros i x Hx.
    rewrite (cell_number_column _ c _ i (getitem_setitem_eq c _ _ df Hcol)).
    rewrite np_state_seed_world.
    apply noised_series_row; [reflexivity|].
    cbn [cells]. rewrite list_lookup_fmap, Hx. reflexivity.
Qed.

(** X8. A call without a seed goes on in the stream where the call before it
    stopped: after a call on a column of [n] rows, row [i] meets draw
    [n + i] of the state the first call started from.  After a seeded call
    the later unseeded calls are therefore reproducible too. *)
Theorem add_noise_unseeded_continues (data : loc) (c : string)
    (a b a2 b2 : number) (seed : option Z) (w w1 : World) (r : loc)
    (df : DataFrame) (s : Series) :
  frames w !! data = Some df ->
  getitem c df = Some s ->
  add_noise data c a b seed w = (inr r, w1) ->
  fle b2 a2 = false ->
  n_rows s = 0 \/ isfinite (fsub b2 a2) = true ->
  exists w2 df2,
    add_noise data c a2 b2 None w1 = (inr data, w2) /\
    frames w2 !! data = Some df2 /\
    forall i v, cell_number df c i = Some v ->
      cell_number df2 c i =
        Some (fmul (fmul v (fadd (of_int 1)
                              (nth_uniform a b (seeded_state seed w) i)))
                   (fadd (of_int 1)
                      (nth_uniform a2 b2 (seeded_state seed w) (n_rows s + i)))).
Proof.
  intros Hdf Hcol Hrun Hr2 Hok2.
  destruct (add_noise_second_call data c a b a2 b2 seed None w w1 r df
              Hdf Hrun Hr2 I) as (w2 & df2 & Hrun2 & Hdf2 & Hrows).
  { intros s0 Hs0. assert (s0 = s) as -> by congruence. exact Hok2. }
  exists w2, df2. split; [exact Hrun2|]. split; [exact Hdf2|].
  intros i v Hv. rewrite (Hrows i v Hv). cbn [seeded_state].
  rewrite (add_noise_np_state _ _ _ _ _ _ _ _ _ s Hdf Hcol Hrun).
  now rewrite nth_uniform_shift.
Qed.

(** X10. A run on a readable file whose column passes the checks, with a
    range of finite width (or a column of no rows) and an output path that
    can be written, stores the serialised frame under [output_file] and
    under no other path (the input file itself is replaced when the two
    paths are the same).  The frame stored has the labels and the other
    columns of the frame read, and row [i] of the target column is the row
    read scaled by one plus the [i]-th draw.  Four [INFO] records are logged
    and no error. *)
Theorem main_writes_noised_frame (args : Args) (w : World) (text : string)
    (df : DataFrame) (s : Series) :
  files w !! input_file args = Some text -> text <> "" ->
  parse_csv text = inr df ->
  getitem (column_name args) df = Some s ->
  is_numeric_dtype s = true ->
  fle (max_noise args) (min_noise args) = false ->
  valid_seed (seed args) ->
  n_rows s = 0 \/ isfinite (fsub (max_noise args) (min_noise args)) = true ->
  write_error (output_file args) = None ->
  exists w' df',
    main args w = (inr tt, w') /\
    files w' !! output_file args = Some (format_csv df') /\
    columns df' = columns df /\
    (forall c', c' <> column_name args -> getitem c' df' = getitem c' df) /\
    (exists s', getitem (column_name args) df' = Some s' /\
                n_rows s' = n_rows s) /\
    (forall i v, cell_number df (column_name args) i = Some v ->
       cell_number df' (column_name args) i =
         Some (fmul v (fadd (of_int 1)
                         (nth_uniform (min_noise args) (max_noise args)
                            (seeded_state (seed args) w) i)))) /\
    (forall path, path <> output_file args -> files w' !! path = files w !! path) /\
    log w' =
      (log w ++
       [Log INFO ("Reading input file: " +:+ input_file args);
        Log INFO ("Adding noise to column: " +:+ column_name args);
        Log INFO ("Saving output to: " +:+ output_file args);
        Log INFO "Data masking completed successfully."])%list.
Proof.
  intros Hfile Htext Hparse Hcol Hnum Hr Hz Hok Hwr.
  destruct (main_accepted_run args w text df s Hfile Htext Hparse Hcol Hnum
              Hr Hz Hok Hwr) as (w' & Hrun & Hf & Hlog).
  destruct (setitem_noised (column_name args) (min_noise args) (max_noise args)
              (seeded_state (seed args) w) df s Hcol Hnum)
    as (Hcols & Hother & Hsame & Hrows).
  exists w', (noised_frame args w df s).
  split; [exact Hrun|]. rewrite Hf. split; [apply lookup_insert_eq|].
  split; [exact Hcols|]. split; [exact Hother|]. split; [exact Hsame|].
  split; [exact Hrows|]. split; [|exact Hlog].
  intros path Hne. now apply lookup_insert_ne.
Qed.

(** X11. An exception of [add_noise] is reported twice: once by [add_noise] with
    the class name in front, once by [main] as "An error occurred".  The run
    ends normally and no file is written. *)
Theorem main_reports_rejection_twice (args : Args) (w : World) (text : string)
    (df : DataFrame) (e : exn) :
  files w !! input_file args = Some text -> text <> "" ->
  parse_csv text = inr df ->
  validate df (column_name args) (min_noise args) (max_noise args) (seed args)
    = Some e ->
  exists w',
    main args w = (inr tt, w') /\
    files w' = files w /\
    log w' =
      (log w ++
       [Log INFO ("Reading input file: " +:+ input_file args);
        Log INFO ("Adding noise to column: " +:+ column_name args);
        Log ERROR (exn_class_name (exn_cls e) +:+ ": " +:+ exn_msg e);
        Log ERROR ("An error occurred: " +:+ exn_msg e)])%list.
Proof.
  intros Hfile Htext Hparse Hv.
  rewrite (main_parsed args w text df Hfile Htext Hparse).
  rewrite (validate_raises _ _ _ _ _ _ df e)
    by (try apply lookup_insert_eq; exact Hv).
  unfold main_handler, isinstance.
  destruct (validate_class _ _ _ _ _ _ Hv) as [Hcls | Hcls]; rewrite Hcls;
    (eexists; split; [reflexivity|]; split; [reflexivity|];
     cbn; now rewrite <- !app_assoc).
Qed.

(** X12. A missing input file and an input file without content end the run
    after two log records, the second naming the input path; nothing is
    written and no frame is created. *)
Theorem main_unreadable_input (args : Args) (w : World) :
  files w !! input_file args = None \/ files w !! input_file args = Some "" ->
  exists w',
    main args w = (inr tt, w') /\
    files w' = files w /\
    frames w' = frames w /\
    log w' =
      (log w ++
       [Log INFO ("Reading input file: " +:+ input_file args);
        Log ERROR
          (match files w !! input_file args with
           | None => "Input file not found: "
           | Some _ => "Input file is empty: "
           end +:+ input_file args)])%list.
Proof.
  intros Hcase. unfold main, try_except, main_body, bind at 1, logging at 1.
  unfold bind at 1, pd_read_csv. cbn [files set_log].
  destruct Hcase as [-> | ->]; cbn; eexists; repeat split;
    cbn; now rewrite <- app_assoc.
Qed.

(** X13. A run of [main()] ends in one of two ways.  When argparse ends the
    process (status 2 for a command line it rejects, status 0 for [-h]) the
    interpreter exits from line 75, outside the [try]: nothing is logged,
    read or written.  When argparse hands over the arguments, [main]
    returns and no exception leaves it: either the file system is as it was
    and the last log record is an [ERROR] record, or exactly [output_file]
    was written and the last record is the completion message. *)
Theorem main_ends (argv : parse_result) (w : World) :
  match argv with
  | Exits status => main_from_argv argv w = (SystemExit status, w)
  | Parsed cl =>
      exists w',
        main_from_argv argv w = (Returned, w') /\
        ((files w' = files w /\
          exists msg, last (log w') = Some (Log ERROR msg)) \/
         (exists bytes,
            files w' = <[arg_output_file cl := bytes]> (files w) /\
            last (log w') =
              Some (Log INFO "Data masking completed successfully.")))
  end.
Proof.
  destruct argv as [cl|status]; [|reflexivity].
  destruct (main_returns (setup_argparse cl) w) as (w' & Hrun & Hcase).
  exists w'. unfold main_from_argv. rewrite Hrun. split; [reflexivity|].
  exact Hcase.
Qed.

(** X14. With a seed, two runs on the same input bytes do the same to the file
    system, whatever the generators held before: both leave it unchanged or
    both write the same bytes to [output_file]. *)
Theorem main_reproducible (args : Args) (z : Z) (w1 w2 : World) :
  seed args = Some z ->
  files w1 !! input_file args = files w2 !! input_file args ->
  (files (snd (main args w1)) = files w1 /\
   files (snd (main args w2)) = files w2) \/
  (exists bytes,
     files (snd (main args w1)) = <[output_file args := bytes]> (files w1) /\
     files (snd (main args w2)) = <[output_file args := bytes]> (files w2)).
Proof.
  intros Hseed Hin. rewrite !main_files, <- Hin. unfold noised_frame.
  rewrite Hseed. cbn [seeded_state].
  destruct (files w1 !! input_file args) as [text|]; [|now left].
  case_bool_decide; [now left|].
  destruct (parse_csv text) as [e|df]; [now left|].
  destruct (validate df (column_name args) (min_noise args) (max_noise args)
              (Some z)); [now left|].
  destruct (getitem (column_name args) df) as [s|]; [|now left].
  destruct (write_error (output_file args)); [now left|].
  destruct (draws_complete (min_noise args) (max_noise args) s); [right|now left].
  eauto.
Qed.

(** X16. The checks pass, the column has a row and the width of the range
    is not finite (as for [-2**1023] and [2**1023], or for a NaN bound):
    the call raises numpy's [OverflowError] from the first draw.  By then
    both generators have been reseeded; no frame is written, and the
    exception is logged as unexpected. *)
Theorem add_noise_overflowing_range (data : loc) (c : string) (a b : number)
    (seed : option Z) (w : World) (df : DataFrame) (s : Series) :
  frames w !! data = Some df ->
  getitem c df = Some s ->
  is_numeric_dtype s = true ->
  fle b a = false ->
  valid_seed seed ->
  0 < n_rows s ->
  isfinite (fsub b a) = false ->
  exists w',
    add_noise data c a b seed w = (inl RangeOverflow, w') /\
    frames w' = frames w /\
    np_state w' = seeded_state seed w /\
    py_state w' = match seed with
                  | Some z => py_seed z
                  | None => py_state w
                  end /\
    log w' =
      (log w ++
       [Log ERROR "An unexpected error occurred: Range exceeds valid bounds"])%list.
Proof.
  intros Hdf Hcol Hnum Hr Hz Hn Hfin. eexists. split.
  - now apply (add_noise_overflow data c a b seed w df s).
  - destruct seed; repeat split.
Qed.

(** X17. [add_noise] has returned and the output path cannot be opened for
    writing: [main] still returns, nothing is written, the frame read and
    noised is lost, and the exception of [to_csv] goes through the handlers
    of [main] in their order, so that a [FileNotFoundError] for the output
    path is reported as "Input file not found" with the input path. *)
Theorem main_unwritable_output (args : Args) (w : World) (text : string)
    (df : DataFrame) (s : Series) (e : exn) :
  files w !! input_file args = Some text -> text <> "" ->
  parse_csv text = inr df ->
  getitem (column_name args) df = Some s ->
  is_numeric_dtype s = true ->
  fle (max_noise args) (min_noise args) = false ->
  valid_seed (seed args) ->
  n_rows s = 0 \/ isfinite (fsub (max_noise args) (min_noise args)) = true ->
  write_error (output_file args) = Some e ->
  exists w',
    main args w = (inr tt, w') /\
    files w' = files w /\
    log w' =
      (log w ++
       [Log INFO ("Reading input file: " +:+ input_file args);
        Log INFO ("Adding noise to column: " +:+ column_name args);
        Log INFO ("Saving output to: " +:+ output_file args);
        Log ERROR
          (match exn_cls e with
           | FileNotFoundError => "Input file not found: " +:+ input_file args
           | EmptyDataError => "Input file is empty: " +:+ input_file args
           | _ => "An error occurred: " +:+ exn_msg e
           end)])%list.
Proof.
  intros Hfile Htext Hparse Hcol Hnum Hr Hz Hok Hwr.
  destruct (main_write_fails args w text df s e Hfile Htext Hparse Hcol Hnum
              Hr Hz Hok Hwr) as (w' & Hrun & Hf & Hlog).
  exists w'. split; [exact Hrun|]. split; [exact Hf|]. rewrite Hlog.
  unfold isinstance. now destruct (exn_cls e).
Qed.

End Generic.

(** * Properties written over the rationals

    The statements of this section are written with the order and the
    arithmetic of [Q].  They rest on the lemmas of the section before,
    which hold for every number system. *)

#[global] Existing Instance rationals.

Section Exact.
Context {G : @Generators rationals} {C : @CsvCodec rationals}.


(** In exact arithmetic an offset computed from a sample of [[0, 1)] lies in
    [[a, b)].  The doubles of the code round the sum, and the bound does
    not carry over to them. *)
Lemma nth_uniform_exact_bounds (a b : Q) (st : rng) (i : nat) :
  (0 <= fst (random_sample (iter_state i st)) < 1)%Q ->
  (a < b)%Q ->
  (a <= nth_uniform a b st i < b)%Q.
Proof.
  intros [H0 H1] Hlt. unfold nth_uniform. cbn [fadd fmul fsub rationals].
  set (x := fst (random_sample (iter_state i st))) in *.
  assert (Hw : (0 < b - a)%Q) by lra.
  assert (Hlo : (0 <= (b - a) * x)%Q) by (apply Qmult_le_0_compat; lra).
  assert (Hhi : ((b - a) * x < (b - a) * 1)%Q) by (apply Qmult_lt_l; assumption).
  lra.
Qed.











End Exact.

(** * The claims on the fixtures *)

Lemma salary_run :
  add_noise (G := lcg) 1%positive "salary" default_min default_max (Some 42%Z)
    salary_world = (inr 1%positive, salary_noised).
Proof. reflexivity. Qed.

(** The run of the usage note on the salary table: 1000 and 2000 become
    about 1016.46 and 2007.93. *)
Example salary_run_values :
  frames salary_noised !! 1%positive =
    Some [("id", Int64Series [1; 2]%Z);
          ("salary", Float64Series [2182834488600000 # 2147483648000;
                                    4311991472000000 # 2147483648000])].
Proof. vm_compute. reflexivity. Qed.

(** A seed numpy rejects makes the call raise after the three checks. *)
Example negative_seed_raises :
  fst (add_noise (G := lcg) 1%positive "salary" default_min default_max
         (Some (-1)%Z) salary_world) = inl InvalidSeed.
Proof. vm_compute. reflexivity. Qed.

(** A text column is refused by the dtype check, and the frame is kept. *)
Example text_column_raises :
  fst (add_noise (G := lcg) 1%positive "name" default_min default_max
         (Some 42%Z) names_world) = inl (NonNumericColumn "name") /\
  frames (snd (add_noise (G := lcg) 1%positive "name" default_min default_max
                 (Some 42%Z) names_world)) !! 1%positive = Some names_frame.
Proof. split; vm_compute; reflexivity. Qed.

(** The range of the rejection cases of the specification. *)
Example reversed_range_raises :
  fst (add_noise (G := lcg) 1%positive "salary" (2 # 10) (1 # 10) None
         salary_world) = inl InvalidRange.
Proof. vm_compute. reflexivity. Qed.

(** The usage note end to end: the output file is written and four [INFO]
    records are logged. *)
Example main_run_writes_output :
  let args := mkArgs "input.csv" "output.csv" "salary" default_min default_max
                (Some 42%Z) in
  let r := main (G := lcg) (C := table_codec) args salary_world in
  fst r = inr tt /\
  files (snd r) !! "output.csv" = Some "id,salary" /\
  map log_level_of (log (snd r)) = [INFO; INFO; INFO; INFO].
Proof. repeat split; vm_compute; reflexivity. Qed.

(** The usage note on binary64, and the three runs that separate the code
    from the claims as they are written. *)
Example salary_run64 :
  fst (add_noise (G := lcg64) 1%positive "salary" minus_tenth tenth (Some 42%Z)
         salary_world64) = inr 1%positive.
Proof. vm_compute. reflexivity. Qed.

Example overflowing_width : isfinite (Numbers := binary64) (fsub huge minus_huge) = false.
Proof. reflexivity. Qed.

Example nan_comparisons :
  fle (Numbers := binary64) tenth PrimFloat.nan = false /\
  flt (Numbers := binary64) PrimFloat.nan tenth = false /\
  isfinite (Numbers := binary64) (fsub tenth PrimFloat.nan) = false.
Proof. repeat split. Qed.

Example rounded_offset :
  fadd (Numbers := binary64) low16
    (fmul (fsub high16 low16)
       (PrimFloat.div (float_of_Z 4943272583565992) (float_of_Z (2 ^ 53)))) =
  high16.
Proof. reflexivity. Qed.




Lemma add_noise_checks_in_order_witness :
  (frames salary_world !! 1%positive = Some salary_frame /\
   ("missing" ∉ columns salary_frame) /\
   add_noise (G := lcg) 1%positive "missing" (2 # 10) (1 # 10) None
     salary_world =
     (inl (UnknownColumn "missing"),
      logged ("ValueError: " +:+ exn_msg (UnknownColumn "missing"))
        salary_world)) /\
  (frames names_world !! 1%positive = Some names_frame /\
   getitem "name" names_frame = Some (ObjectSeries ["ann"; "bob"]) /\
   row_values (N := rationals) (ObjectSeries ["ann"; "bob"]) !! 0 =
     Some None /\
   add_noise (G := lcg) 1%positive "name" (2 # 10) (1 # 10) None names_world =
     (inl (NonNumericColumn "name"),
      logged ("TypeError: " +:+ exn_msg (NonNumericColumn "name"))
        names_world)) /\
  (frames twin_world !! 1%positive = Some twin_frame /\
   ("salary" ∈ columns twin_frame) /\
   getitem "salary" twin_frame = None /\
   add_noise (G := lcg) 1%positive "salary" (2 # 10) (1 # 10) None twin_world =
     (inl (NonNumericColumn "salary"),
      logged ("TypeError: " +:+ exn_msg (NonNumericColumn "salary"))
        twin_world)) /\
  (getitem "salary" salary_frame = Some (Int64Series [1000; 2000]%Z) /\
   fle (Numbers := rationals) (1 # 10) (2 # 10) = true /\
   add_noise (G := lcg) 1%positive "salary" (2 # 10) (1 # 10) None
     salary_world =
     (inl InvalidRange,
      logged ("ValueError: " +:+ exn_msg InvalidRange) salary_world)) /\
  (fst (add_noise (G := lcg) 1%positive "salary" default_min default_max
          (Some (-1)%Z) salary_world) = inl InvalidSeed /\
   frames (snd (add_noise (G := lcg) 1%positive "salary" default_min
                  default_max (Some (-1)%Z) salary_world)) =
     frames salary_world /\
   files (snd (add_noise (G := lcg) 1%positive "salary" default_min default_max
                 (Some (-1)%Z) salary_world)) = files salary_world).
Proof.
  assert (H1 : frames salary_world !! 1%positive = Some salary_frame)
    by reflexivity.
  assert (H2 : frames names_world !! 1%positive = Some names_frame)
    by reflexivity.
  assert (H3 : frames twin_world !! 1%positive = Some twin_frame)
    by reflexivity.
  assert (Hout : "missing" ∉ columns salary_frame)
    by (apply (bool_decide_unpack _); vm_compute; exact I).
  assert (Hin : "salary" ∈ columns twin_frame)
    by (apply (bool_decide_unpack _); vm_compute; exact I).
  assert (Hrow : row_values (N := rationals) (ObjectSeries ["ann"; "bob"])
                   !! 0 = Some None) by reflexivity.
  assert (Hseed : fst (add_noise (G := lcg) 1%positive "salary" default_min
                         default_max (Some (-1)%Z) salary_world)
                  = inl InvalidSeed) by reflexivity.
  split; [|split; [|split; [|split]]].
  - split; [exact H1|]. split; [exact Hout|].
    exact (proj1 (add_noise_checks_in_order (G := lcg) 1%positive "missing"
                    (2 # 10) (1 # 10) None salary_world salary_frame H1) Hout).
  - split; [exact H2|]. split; [reflexivity|]. split; [exact Hrow|].
    exact (proj1 (proj2 (add_noise_checks_in_order (G := lcg) 1%positive "name"
                           (2 # 10) (1 # 10) None names_world names_frame H2))
             (ObjectSeries ["ann"; "bob"]) eq_refl
             (or_intror (ex_intro _ 0 Hrow))).
  - split; [exact H3|]. split; [exact Hin|]. split; [reflexivity|].
    exact (proj1 (proj2 (proj2
             (add_noise_checks_in_order (G := lcg) 1%positive "salary"
                (2 # 10) (1 # 10) None twin_world twin_frame H3))) Hin eq_refl).
  - split; [reflexivity|]. split; [reflexivity|].
    exact (proj1 (proj2 (proj2 (proj2
             (add_noise_checks_in_order (G := lcg) 1%positive "salary"
                (2 # 10) (1 # 10) None salary_world salary_frame H1))))
             (Int64Series [1000; 2000]%Z) eq_refl eq_refl eq_refl).
  - split; [exact Hseed|].
    exact (proj2 (proj2 (proj2 (proj2
             (add_noise_checks_in_order (G := lcg) 1%positive "salary"
                default_min default_max (Some (-1)%Z) salary_world
                salary_frame H1)))) InvalidSeed Hseed).
Defined.

(** C3 as it is written fails on binary64: with a NaN bound
    [min_noise < max_noise] is violated, and no [InvalidRange] is raised:
    the comparison of line 47 is false, the generators are reseeded, and the
    call fails in the transform. *)
Lemma nan_bound_passes_range_check :
  frames salary_world64 !! 1%positive = Some salary_frame64 /\
  getitem "salary" salary_frame64 = Some (Int64Series [1000; 2000]%Z) /\
  is_numeric_dtype (N := binary64) (Int64Series [1000; 2000]%Z) = true /\
  flt (Numbers := binary64) PrimFloat.nan tenth = false /\
  fst (add_noise (G := lcg64) 1%positive "salary" PrimFloat.nan tenth
         (Some 42%Z) salary_world64) = inl RangeOverflow /\
  fst (add_noise (G := lcg64) 1%positive "salary" PrimFloat.nan tenth
         (Some 42%Z) salary_world64) <> inl InvalidRange /\
  np_state (snd (add_noise (G := lcg64) 1%positive "salary" PrimFloat.nan tenth
                   (Some 42%Z) salary_world64)) = 42%Z.
Proof.
  assert (Hrun : fst (add_noise (G := lcg64) 1%positive "salary" PrimFloat.nan
                        tenth (Some 42%Z) salary_world64) = inl RangeOverflow)
    by (vm_compute; reflexivity).
  repeat split; try reflexivity; try exact Hrun.
  rewrite Hrun. discriminate.
Qed.







Lemma add_noise_in_place_witness :
  frames salary_world !! 1%positive = Some salary_frame /\
  add_noise (G := lcg) 1%positive "salary" default_min default_max (Some 42%Z)
    salary_world = (inr 1%positive, salary_noised) /\
  (1%positive = 1%positive /\
   (exists df' s s',
      frames salary_noised !! 1%positive = Some df' /\
      getitem "salary" salary_frame = Some s /\
      getitem "salary" df' = Some s' /\
      n_rows s' = n_rows s /\
      forall i v, cell_number salary_frame "salary" i = Some v ->
        cell_number df' "salary" i =
          Some (v * (1 + nth_uniform (G := lcg) default_min default_max
                           (seeded_state (Some 42%Z) salary_world) i))%Q) /\
   dom (frames salary_noised) = dom (frames salary_world) /\
   (forall l, l <> 1%positive ->
      frames salary_noised !! l = frames salary_world !! l)).
Proof.
  assert (H1 : frames salary_world !! 1%positive = Some salary_frame)
    by reflexivity.
  assert (H2 : add_noise (G := lcg) 1%positive "salary" default_min default_max
                 (Some 42%Z) salary_world = (inr 1%positive, salary_noised))
    by reflexivity.
  exact (conj H1 (conj H2
    (add_noise_in_place (G := lcg) 1%positive "salary" default_min
       default_max (Some 42%Z) salary_world salary_noised 1%positive
       salary_frame H1 H2))).
Defined.

(** The frame behind the caller's reference after the run of the usage
    note: the salary column no longer holds 1000 and 2000. *)
Example salary_column_replaced :
  (frames salary_noised !! 1%positive ≫= getitem "salary") =
    Some (Float64Series [2182834488600000 # 2147483648000;
                         4311991472000000 # 2147483648000]) /\
  (frames salary_noised !! 1%positive ≫= getitem "id") =
    Some (Int64Series [1; 2]%Z).
Proof. split; vm_compute; reflexivity. Qed.


(** * The further properties on the fixtures *)

Lemma add_noise_returns_iff_witness :
  frames salary_world !! 1%positive = Some salary_frame /\
  ((exists r w',
      add_noise (G := lcg) 1%positive "salary" default_min default_max
        (Some 42%Z) salary_world = (inr r, w')) <->
   (exists s, getitem "salary" salary_frame = Some s /\
      is_numeric_dtype s = true /\
      fle (Numbers := rationals) default_max default_min = false /\
      valid_seed (Some 42%Z) /\
      (n_rows s = 0 \/
       isfinite (Numbers := rationals) (fsub default_max default_min) = true))) /\
  frames twin_world !! 1%positive = Some twin_frame /\
  ~ (exists r w',
       add_noise (G := lcg) 1%positive "salary" default_min default_max
         (Some 42%Z) twin_world = (inr r, w')).
Proof.
  assert (H1 : frames salary_world !! 1%positive = Some salary_frame)
    by reflexivity.
  assert (H2 : frames twin_world !! 1%positive = Some twin_frame)
    by reflexivity.
  split; [exact H1|]. split.
  - exact (add_noise_returns_iff (G := lcg) 1%positive "salary" default_min
             default_max (Some 42%Z) salary_world salary_frame H1).
  - split; [exact H2|]. intros Hrun.
    destruct (proj1 (add_noise_returns_iff (G := lcg) 1%positive "salary"
                       default_min default_max (Some 42%Z) twin_world
                       twin_frame H2) Hrun) as (s & Hs & _).
    discriminate Hs.
Defined.




Lemma add_noise_bool_column_witness :
  frames flags_world !! 1%positive = Some flags_frame /\
  getitem "active" flags_frame = Some (BoolSeries [true; false]) /\
  fle (Numbers := rationals) default_max default_min = false /\
  valid_seed (Some 42%Z) /\
  ([true; false] = [] \/
   isfinite (Numbers := rationals) (fsub default_max default_min) = true) /\
  (exists w' df',
     add_noise (G := lcg) 1%positive "active" default_min default_max
       (Some 42%Z) flags_world = (inr 1%positive, w') /\
     frames w' !! 1%positive = Some df' /\
     forall i (x : bool), [true; false] !! i = Some x ->
       cell_number df' "active" i =
         Some (inject_Z (if x then 1 else 0) *
               (1 + nth_uniform (G := lcg) default_min default_max
                      (seeded_state (Some 42%Z) flags_world) i))%Q).
Proof.
  assert (H1 : frames flags_world !! 1%positive = Some flags_frame)
    by reflexivity.
  assert (H2 : getitem "active" flags_frame = Some (BoolSeries [true; false]))
    by reflexivity.
  assert (H3 : fle (Numbers := rationals) default_max default_min = false)
    by reflexivity.
  assert (H4 : valid_seed (Some 42%Z)) by (cbn; lia).
  assert (H5 : [true; false] = [] \/
               isfinite (Numbers := rationals) (fsub default_max default_min)
                 = true) by (right; reflexivity).
  exact (conj H1 (conj H2 (conj H3 (conj H4 (conj H5
    (add_noise_bool_column (G := lcg) 1%positive "active" default_min
       default_max (Some 42%Z) flags_world flags_frame [true; false]
       H1 H2 H3 H4 H5)))))).
Defined.


Lemma add_noise_unseeded_continues_witness :
  frames salary_world !! 1%positive = Some salary_frame /\
  getitem "salary" salary_frame = Some (Int64Series [1000; 2000]%Z) /\
  add_noise (G := lcg) 1%positive "salary" default_min default_max (Some 42%Z)
    salary_world = (inr 1%positive, salary_noised) /\
  fle (Numbers := rationals) (1 # 2) 0 = false /\
  (n_rows (N := rationals) (Int64Series [1000; 2000]%Z) = 0 \/
   isfinite (Numbers := rationals) (fsub (1 # 2) 0) = true) /\
  (exists w2 df2,
     add_noise (G := lcg) 1%positive "salary" 0 (1 # 2) None salary_noised =
       (inr 1%positive, w2) /\
     frames w2 !! 1%positive = Some df2 /\
     forall i v, cell_number salary_frame "salary" i = Some v ->
       cell_number df2 "salary" i =
         Some (v * (1 + nth_uniform (G := lcg) default_min default_max
                          (seeded_state (Some 42%Z) salary_world) i)
                 * (1 + nth_uniform (G := lcg) 0 (1 # 2)
                          (seeded_state (Some 42%Z) salary_world)
                          (n_rows (N := rationals) (Int64Series [1000; 2000]%Z) + i)))%Q).
Proof.
  assert (H1 : frames salary_world !! 1%positive = Some salary_frame)
    by reflexivity.
  assert (H2 : getitem "salary" salary_frame = Some (Int64Series [1000; 2000]%Z))
    by reflexivity.
  assert (H3 : add_noise (G := lcg) 1%positive "salary" default_min default_max
                 (Some 42%Z) salary_world = (inr 1%positive, salary_noised))
    by reflexivity.
  assert (H4 : fle (Numbers := rationals) (1 # 2) 0 = false) by reflexivity.
  assert (H5 : n_rows (N := rationals) (Int64Series [1000; 2000]%Z) = 0 \/
               isfinite (Numbers := rationals) (fsub (1 # 2) 0) = true)
    by (right; reflexivity).
  exact (conj H1 (conj H2 (conj H3 (conj H4 (conj H5
    (add_noise_unseeded_continues (G := lcg) 1%positive "salary" default_min
       default_max 0 (1 # 2) (Some 42%Z) salary_world salary_noised 1%positive
       salary_frame (Int64Series [1000; 2000]%Z) H1 H2 H3 H4 H5)))))).
Defined.

Lemma main_writes_noised_frame_witness :
  files disk_world !! input_file salary_args = Some salary_csv /\
  salary_csv <> "" /\
  parse_csv (CsvCodec := table_codec) salary_csv = inr salary_frame /\
  getitem (column_name salary_args) salary_frame =
    Some (Int64Series [1000; 2000]%Z) /\
  is_numeric_dtype (N := rationals) (Int64Series [1000; 2000]%Z) = true /\
  fle (Numbers := rationals) (max_noise salary_args) (min_noise salary_args)
    = false /\
  valid_seed (seed salary_args) /\
  (n_rows (N := rationals) (Int64Series [1000; 2000]%Z) = 0 \/
   isfinite (Numbers := rationals)
     (fsub (max_noise salary_args) (min_noise salary_args)) = true) /\
  write_error (CsvCodec := table_codec) (output_file salary_args) = None /\
  (exists w' df',
     main (G := lcg) (C := table_codec) salary_args disk_world = (inr tt, w') /\
     files w' !! output_file salary_args =
       Some (format_csv (CsvCodec := table_codec) df') /\
     columns df' = columns salary_frame /\
     (forall c', c' <> column_name salary_args ->
        getitem c' df' = getitem c' salary_frame) /\
     (exists s', getitem (column_name salary_args) df' = Some s' /\
                 n_rows s' = n_rows (N := rationals) (Int64Series [1000; 2000]%Z)) /\
     (forall i v, cell_number salary_frame (column_name salary_args) i = Some v ->
        cell_number df' (column_name salary_args) i =
          Some (v * (1 + nth_uniform (G := lcg) (min_noise salary_args)
                           (max_noise salary_args)
                           (seeded_state (seed salary_args) disk_world) i))%Q) /\
     (forall path, path <> output_file salary_args ->
        files w' !! path = files disk_world !! path) /\
     log w' =
       (log disk_world ++
        [Log INFO ("Reading input file: " +:+ input_file salary_args);
         Log INFO ("Adding noise to column: " +:+ column_name salary_args);
         Log INFO ("Saving output to: " +:+ output_file salary_args);
         Log INFO "Data masking completed successfully."])%list).
Proof.
  assert (H1 : files disk_world !! input_file salary_args = Some salary_csv)
    by reflexivity.
  assert (H2 : salary_csv <> "") by discriminate.
  assert (H3 : parse_csv (CsvCodec := table_codec) salary_csv = inr salary_frame)
    by reflexivity.
  assert (H4 : getitem (column_name salary_args) salary_frame =
                 Some (Int64Series [1000; 2000]%Z)) by reflexivity.
  assert (H5 : is_numeric_dtype (N := rationals) (Int64Series [1000; 2000]%Z)
                 = true) by reflexivity.
  assert (H6 : fle (Numbers := rationals) (max_noise salary_args)
                 (min_noise salary_args) = false) by reflexivity.
  assert (H7 : valid_seed (seed salary_args)) by (cbn; lia).
  assert (H8 : n_rows (N := rationals) (Int64Series [1000; 2000]%Z) = 0 \/
               isfinite (Numbers := rationals)
                 (fsub (max_noise salary_args) (min_noise salary_args)) = true)
    by (right; reflexivity).
  assert (H9 : write_error (CsvCodec := table_codec) (output_file salary_args)
                 = None) by reflexivity.
  exact (conj H1 (conj H2 (conj H3 (conj H4 (conj H5 (conj H6 (conj H7
    (conj H8 (conj H9
    (main_writes_noised_frame (G := lcg) (C := table_codec) salary_args
       disk_world salary_csv salary_frame (Int64Series [1000; 2000]%Z)
       H1 H2 H3 H4 H5 H6 H7 H8 H9)))))))))).
Defined.

Lemma main_reports_rejection_twice_witness :
  files salary_world !! input_file missing_args = Some salary_csv /\
  salary_csv <> "" /\
  parse_csv (CsvCodec := table_codec) salary_csv = inr salary_frame /\
  validate salary_frame (column_name missing_args) (min_noise missing_args)
    (max_noise missing_args) (seed missing_args) =
    Some (UnknownColumn "missing") /\
  (exists w',
     main (G := lcg) (C := table_codec) missing_args salary_world =
       (inr tt, w') /\
     files w' = files salary_world /\
     log w' =
       (log salary_world ++
        [Log INFO ("Reading input file: " +:+ input_file missing_args);
         Log INFO ("Adding noise to column: " +:+ column_name missing_args);
         Log ERROR (exn_class_name (exn_cls (UnknownColumn "missing")) +:+ ": "
                    +:+ exn_msg (UnknownColumn "missing"));
         Log ERROR ("An error occurred: "
                    +:+ exn_msg (UnknownColumn "missing"))])%list).
Proof.
  assert (H1 : files salary_world !! input_file missing_args = Some salary_csv)
    by reflexivity.
  assert (H2 : salary_csv <> "") by discriminate.
  assert (H3 : parse_csv (CsvCodec := table_codec) salary_csv = inr salary_frame)
    by reflexivity.
  assert (H4 : validate salary_frame (column_name missing_args)
                 (min_noise missing_args) (max_noise missing_args)
                 (seed missing_args) = Some (UnknownColumn "missing"))
    by reflexivity.
  exact (conj H1 (conj H2 (conj H3 (conj H4
    (main_reports_rejection_twice (G := lcg) (C := table_codec) missing_args
       salary_world salary_csv salary_frame (UnknownColumn "missing")
       H1 H2 H3 H4))))).
Defined.

Lemma main_unreadable_input_witness :
  (files other_world !! input_file salary_args = None \/
   files other_world !! input_file salary_args = Some "") /\
  (exists w',
     main (G := lcg) (C := table_codec) salary_args other_world = (inr tt, w') /\
     files w' = files other_world /\
     frames w' = frames other_world /\
     log w' =
       (log other_world ++
        [Log INFO ("Reading input file: " +:+ input_file salary_args);
         Log ERROR
           (match files other_world !! input_file salary_args with
            | None => "Input file not found: "
            | Some _ => "Input file is empty: "
            end +:+ input_file salary_args)])%list).
Proof.
  assert (H1 : files other_world !! input_file salary_args = None \/
               files other_world !! input_file salary_args = Some "")
    by (left; reflexivity).
  exact (conj H1
    (main_unreadable_input (G := lcg) (C := table_codec) salary_args
       other_world H1)).
Defined.

(** The two endings of [main()] on the fixtures: a command line argparse
    rejects, and the command line of the usage note. *)
Example rejected_command_line :
  main_from_argv (G := lcg) (C := table_codec) (Exits 2) disk_world =
    (SystemExit 2, disk_world).
Proof. reflexivity. Qed.

Example accepted_command_line :
  fst (main_from_argv (G := lcg) (C := table_codec) (Parsed only_min_noise)
         disk_world) = Returned /\
  files (snd (main_from_argv (G := lcg) (C := table_codec)
                (Parsed only_min_noise) disk_world)) = files disk_world.
Proof. split; reflexivity. Qed.

Lemma main_reproducible_witness :
  seed salary_args = Some 42%Z /\
  files salary_world !! input_file salary_args =
    files disk_world !! input_file salary_args /\
  ((files (snd (main (G := lcg) (C := table_codec) salary_args salary_world)) =
      files salary_world /\
    files (snd (main (G := lcg) (C := table_codec) salary_args disk_world)) =
      files disk_world) \/
   (exists bytes,
      files (snd (main (G := lcg) (C := table_codec) salary_args salary_world)) =
        <[output_file salary_args := bytes]> (files salary_world) /\
      files (snd (main (G := lcg) (C := table_codec) salary_args disk_world)) =
        <[output_file salary_args := bytes]> (files disk_world))).
Proof.
  assert (H1 : seed salary_args = Some 42%Z) by reflexivity.
  assert (H2 : files salary_world !! input_file salary_args =
               files disk_world !! input_file salary_args) by reflexivity.
  exact (conj H1 (conj H2
    (main_reproducible (G := lcg) (C := table_codec) salary_args 42%Z
       salary_world disk_world H1 H2))).
Defined.


(** The command line [input.csv output.csv salary --min_noise 0.2]: the upper
    bound keeps its default 0.1 and the call is refused. *)
Example only_min_noise_refused :
  fst (add_noise (G := lcg) 1%positive
         (column_name (setup_argparse only_min_noise))
         (min_noise (setup_argparse only_min_noise))
         (max_noise (setup_argparse only_min_noise))
         (seed (setup_argparse only_min_noise)) salary_world)
    = inl InvalidRange.
Proof. vm_compute. reflexivity. Qed.

Lemma add_noise_overflowing_range_witness :
  frames salary_world64 !! 1%positive = Some salary_frame64 /\
  getitem "salary" salary_frame64 = Some (Int64Series [1000; 2000]%Z) /\
  is_numeric_dtype (N := binary64) (Int64Series [1000; 2000]%Z) = true /\
  fle (Numbers := binary64) huge minus_huge = false /\
  valid_seed (Some 42%Z) /\
  0 < n_rows (N := binary64) (Int64Series [1000; 2000]%Z) /\
  isfinite (Numbers := binary64) (fsub huge minus_huge) = false /\
  (exists w',
     add_noise (G := lcg64) 1%positive "salary" minus_huge huge (Some 42%Z)
       salary_world64 = (inl RangeOverflow, w') /\
     frames w' = frames salary_world64 /\
     np_state w' = seeded_state (G := lcg64) (Some 42%Z) salary_world64 /\
     py_state w' = py_seed (Generators := lcg64) 42%Z /\
     log w' =
       (log salary_world64 ++
        [Log ERROR "An unexpected error occurred: Range exceeds valid bounds"])%list).
Proof.
  assert (H1 : frames salary_world64 !! 1%positive = Some salary_frame64)
    by reflexivity.
  assert (H2 : getitem "salary" salary_frame64 =
                 Some (Int64Series [1000; 2000]%Z)) by reflexivity.
  assert (H3 : is_numeric_dtype (N := binary64) (Int64Series [1000; 2000]%Z)
                 = true) by reflexivity.
  assert (H4 : fle (Numbers := binary64) huge minus_huge = false)
    by reflexivity.
  assert (H5 : valid_seed (Some 42%Z)) by (cbn; lia).
  assert (H6 : 0 < n_rows (N := binary64) (Int64Series [1000; 2000]%Z))
    by (cbn; lia).
  assert (H7 : isfinite (Numbers := binary64) (fsub huge minus_huge) = false)
    by reflexivity.
  exact (conj H1 (conj H2 (conj H3 (conj H4 (conj H5 (conj H6 (conj H7
    (add_noise_overflowing_range (G := lcg64) 1%positive "salary" minus_huge
       huge (Some 42%Z) salary_world64 salary_frame64
       (Int64Series [1000; 2000]%Z) H1 H2 H3 H4 H5 H6 H7)))))))).
Defined.

Lemma main_unwritable_output_witness :
  files disk_world !! input_file missing_dir_args = Some salary_csv /\
  salary_csv <> "" /\
  parse_csv (CsvCodec := readonly_codec) salary_csv = inr salary_frame /\
  getitem (column_name missing_dir_args) salary_frame =
    Some (Int64Series [1000; 2000]%Z) /\
  is_numeric_dtype (N := rationals) (Int64Series [1000; 2000]%Z) = true /\
  fle (Numbers := rationals) (max_noise missing_dir_args)
    (min_noise missing_dir_args) = false /\
  valid_seed (seed missing_dir_args) /\
  (n_rows (N := rationals) (Int64Series [1000; 2000]%Z) = 0 \/
   isfinite (Numbers := rationals)
     (fsub (max_noise missing_dir_args) (min_noise missing_dir_args)) = true) /\
  write_error (CsvCodec := readonly_codec) (output_file missing_dir_args) =
    Some (Exn OtherException
            "Cannot save file into a non-existent directory: 'missing'") /\
  (exists w',
     main (G := lcg) (C := readonly_codec) missing_dir_args disk_world =
       (inr tt, w') /\
     files w' = files disk_world /\
     log w' =
       (log disk_world ++
        [Log INFO "Reading input file: input.csv";
         Log INFO "Adding noise to column: salary";
         Log INFO "Saving output to: missing/output.csv";
         Log ERROR
           "An error occurred: Cannot save file into a non-existent directory: 'missing'"])%list).
Proof.
  assert (H1 : files disk_world !! input_file missing_dir_args = Some salary_csv)
    by reflexivity.
  assert (H2 : salary_csv <> "") by discriminate.
  assert (H3 : parse_csv (CsvCodec := readonly_codec) salary_csv =
                 inr salary_frame) by reflexivity.
  assert (H4 : getitem (column_name missing_dir_args) salary_frame =
                 Some (Int64Series [1000; 2000]%Z)) by reflexivity.
  assert (H5 : is_numeric_dtype (N := rationals) (Int64Series [1000; 2000]%Z)
                 = true) by reflexivity.
  assert (H6 : fle (Numbers := rationals) (max_noise missing_dir_args)
                 (min_noise missing_dir_args) = false) by reflexivity.
  assert (H7 : valid_seed (seed missing_dir_args)) by (cbn; lia).
  assert (H8 : n_rows (N := rationals) (Int64Series [1000; 2000]%Z) = 0 \/
               isfinite (Numbers := rationals)
                 (fsub (max_noise missing_dir_args)
                    (min_noise missing_dir_args)) = true)
    by (right; reflexivity).
  assert (H9 : write_error (CsvCodec := readonly_codec)
                 (output_file missing_dir_args) =
               Some (Exn OtherException
                       "Cannot save file into a non-existent directory: 'missing'"))
    by reflexivity.
  exact (conj H1 (conj H2 (conj H3 (conj H4 (conj H5 (conj H6 (conj H7
    (conj H8 (conj H9
    (main_unwritable_output (G := lcg) (C := readonly_codec) missing_dir_args
       disk_world salary_csv salary_frame (Int64Series [1000; 2000]%Z)
       (Exn OtherException
          "Cannot save file into a non-existent directory: 'missing'")
       H1 H2 H3 H4 H5 H6 H7 H8 H9)))))))))).
Defined.
